(** * app.py: test-generation specification builder and orchestrator

    A shallow embedding of [app.py].  The Streamlit script is a
    read-eval loop: every user action re-executes the script from the
    top against the session state.  The widget layer is represented by
    the values the widgets return in a run (stored widget state, or the
    [value=] argument when the user has not touched the widget); the
    product module and the file system are represented by an environment
    record.  Python dictionaries keep insertion order, so they are
    association lists with in-place update. *)

From Stdlib Require Import String Ascii List ZArith Bool Arith Lia Sorted
  Permutation.
Import ListNotations.
Open Scope string_scope.
Open Scope list_scope.

(** ** Python dictionaries with string keys *)

Module Dict.
Section WithValues.
Context {V : Type}.

Definition t : Type := list (string * V).

Definition empty : t := [].

(** [d.get(k)] *)
Fixpoint get (d : t) (k : string) : option V :=
  match d with
  | [] => None
  | (k', v) :: d' => if String.eqb k' k then Some v else get d' k
  end.

(** [d[k] = v]: an existing key keeps its position. *)
Fixpoint set (d : t) (k : string) (v : V) : t :=
  match d with
  | [] => [(k, v)]
  | (k', v') :: d' =>
      if String.eqb k' k then (k', v) :: d' else (k', v') :: set d' k v
  end.

(** [k in d] *)
Definition mem (d : t) (k : string) : bool :=
  match get d k with Some _ => true | None => false end.

(** [list(d.keys())], [list(d.values())] *)
Definition keys (d : t) : list string := map fst d.
Definition values (d : t) : list V := map snd d.
End WithValues.
Arguments t : clear implicits.
End Dict.

(** ** Values stored in a GenerationSpec *)

#[warnings="-register-all"]
Inductive pyval : Type :=
| VInt (n : Z)
| VBool (b : bool)
| VTuple (lo hi : Z)
| VList (l : list Z)
| VDict (d : list (string * pyval)).

(** The payload of one epic is always a dictionary; a GenerationSpec maps
    epic keys to payloads. *)
Definition payload : Type := Dict.t pyval.
Definition generation_spec : Type := Dict.t payload.

Definition dict_of {A : Type} (inj : A -> pyval) (d : Dict.t A) : pyval :=
  VDict (map (fun kv => (fst kv, inj (snd kv))) d).

Definition VRange (r : Z * Z) : pyval := VTuple (fst r) (snd r).

(** Result of a call that may raise. *)
Inductive outcome (A : Type) : Type :=
| Returned (a : A)
| Raised (e : string).
Arguments Returned {A} a.
Arguments Raised {A} e.

(** ** Widget layer *)

(** State of the widgets in one script run, by widget key.  [None] means
    the widget still shows its [value=] default. *)
Record Widgets : Type := {
  checkbox_state : string -> option bool;
  number_input_state : string -> option Z;
  slider_state : string -> option Z;
  range_slider_state : string -> option (Z * Z)
}.

Definition st_checkbox (w : Widgets) (value : bool) (key : string) : bool :=
  match checkbox_state w key with Some b => b | None => value end.

Definition st_number_input (w : Widgets) (value : Z) (key : string) : Z :=
  match number_input_state w key with Some n => n | None => value end.

(** [st.number_input(..., min_value=min_value, value=value, key=key)]: the
    call raises when the default [value] is below [min_value]. *)
Definition st_number_input_min (w : Widgets) (min_value value : Z)
    (key : string) : outcome Z :=
  if Z.ltb value min_value
  then Raised "StreamlitValueBelowMinError"
  else Returned (st_number_input w value key).

Definition st_slider (w : Widgets) (value : Z) (key : string) : Z :=
  match slider_state w key with Some n => n | None => value end.

Definition st_range_slider (w : Widgets) (value : Z * Z) (key : string) : Z * Z :=
  match range_slider_state w key with Some r => r | None => value end.

(** The radio button of the sidebar. *)
Inductive count_mode : Type :=
| ApplySameCountToAllEpics
| SetIndividualCountsForEachEpic.

(** ** Default tables *)

Definition ppt_names : list string :=
  ["Single Pay"; "Limited Pay (5 pay)"; "Limited Pay (10 pay)";
   "Limited Pay (15 pay)"; "Limited Pay (Pay till age 60)"; "Regular Pay"].

Definition entry_age_ppt_ranges : Dict.t (Z * Z) :=
  [("Single Pay", (18, 65)); ("Limited Pay (5 pay)", (18, 65));
   ("Limited Pay (10 pay)", (18, 65)); ("Limited Pay (15 pay)", (18, 65));
   ("Limited Pay (Pay till age 60)", (18, 55)); ("Regular Pay", (18, 65))]%Z.

Definition policy_term_ppt_ranges : Dict.t (Z * Z) :=
  [("Single Pay", (1, 5)); ("Limited Pay (5 pay)", (10, 67));
   ("Limited Pay (10 pay)", (15, 67)); ("Limited Pay (15 pay)", (20, 67));
   ("Limited Pay (Pay till age 60)", (5, 67)); ("Regular Pay", (5, 67))]%Z.

Definition maturity_age_ppt_ranges : Dict.t (Z * Z) :=
  [("Single Pay", (19, 85)); ("Limited Pay (5 pay)", (24, 85));
   ("Limited Pay (10 pay)", (29, 85)); ("Limited Pay (15 pay)", (34, 85));
   ("Limited Pay (Pay till age 60)", (65, 85)); ("Regular Pay", (23, 85))]%Z.

Definition maturity_age_ppt_ranges_rider : Dict.t (Z * Z) :=
  [("Single Pay", (19, 75)); ("Limited Pay (5 pay)", (19, 75));
   ("Limited Pay (10 pay)", (19, 75)); ("Limited Pay (15 pay)", (19, 75));
   ("Limited Pay (Pay till age 60)", (19, 75)); ("Regular Pay", (19, 75))]%Z.

Definition premium_paying_ppt_ranges : Dict.t (Z * Z) :=
  [("Single Pay", (1, 1)); ("Limited Pay (5 pay)", (5, 5));
   ("Limited Pay (10 pay)", (10, 10)); ("Limited Pay (15 pay)", (15, 15));
   ("Limited Pay (Pay till age 60)", (5, 42)); ("Regular Pay", (5, 67))]%Z.

(** [table[ppt]] for a [ppt] of [ppt_names]; every table has all six. *)
Definition table_at (table : Dict.t (Z * Z)) (ppt : string) : Z * Z :=
  match Dict.get table ppt with Some r => r | None => (0, 0)%Z end.

Definition frequency_options : list string :=
  ["Annual"; "Half-Yearly"; "Quarterly"; "Monthly"; "Single Pay"].

Definition frequency_map : Dict.t Z :=
  [("Annual", 1); ("Half-Yearly", 2); ("Quarterly", 3); ("Monthly", 4);
   ("Single Pay", 5)]%Z.

(** ** Epic Configuration Normalizer *)

Definition is_ppt_epic (epic_key : string) : bool :=
  String.eqb epic_key "EntryAge" || String.eqb epic_key "PremiumPayingTerm"
  || String.eqb epic_key "PolicyTerm" || String.eqb epic_key "MaturityAge".

(** The [(min_age, max_age)] slider of one PPT row.  [sfx] is the empty
    string in the base tab and ["_rider"] in the rider tab; [maturity] is
    the maturity-age default table of the tab. *)
Definition ppt_slider (w : Widgets) (sfx : string) (maturity : Dict.t (Z * Z))
    (epic_key ppt : string) : Z * Z :=
  if String.eqb epic_key "EntryAge" then
    st_range_slider w (table_at entry_age_ppt_ranges ppt)
      ("entry_age_slider_" ++ epic_key ++ "_" ++ ppt ++ sfx)
  else if String.eqb epic_key "PolicyTerm" then
    st_range_slider w (table_at policy_term_ppt_ranges ppt)
      ("entry_age_slider_" ++ epic_key ++ "_" ++ ppt ++ sfx)
  else if String.eqb epic_key "MaturityAge" then
    st_range_slider w (table_at maturity ppt)
      ("maturity_age_slider_" ++ epic_key ++ "_" ++ ppt ++ sfx)
  else
    let d := table_at premium_paying_ppt_ranges ppt in
    if Z.eqb (fst d) (snd d) then
      let v := st_slider w (fst d)
                 ("entry_age_slider_" ++ epic_key ++ "_" ++ ppt ++ sfx) in
      (v, v)
    else
      st_range_slider w d
        ("entry_age_slider_" ++ epic_key ++ "_" ++ ppt ++ sfx).

(** Local dictionaries filled by the loop over [ppt_names]. *)
Record ppt_locals : Type := {
  ppt_age_ranges : Dict.t (Z * Z);
  ppt_pos_counts : Dict.t Z;
  ppt_neg_counts : Dict.t Z;
  ppt_enabled : Dict.t bool
}.

Definition ppt_locals_empty : ppt_locals :=
  {| ppt_age_ranges := []; ppt_pos_counts := []; ppt_neg_counts := [];
     ppt_enabled := [] |}.

(** One row of the per-PPT table in individual-count mode. *)
Definition ppt_row_individual (w : Widgets) (sfx : string)
    (maturity : Dict.t (Z * Z)) (epic_key : string) (is_selected : bool)
    (loc : ppt_locals) (ppt : string) : ppt_locals :=
  let enabled :=
    st_checkbox w is_selected ("ppt_enabled_" ++ epic_key ++ "_" ++ ppt ++ sfx) in
  let r := ppt_slider w sfx maturity epic_key ppt in
  let pos := st_number_input w 5 ("epic_pos_" ++ epic_key ++ "_" ++ ppt ++ sfx) in
  let neg := st_number_input w 5 ("epic_neg_" ++ epic_key ++ "_" ++ ppt ++ sfx) in
  if enabled then
    {| ppt_age_ranges := Dict.set (ppt_age_ranges loc) ppt r;
       ppt_pos_counts := Dict.set (ppt_pos_counts loc) ppt pos;
       ppt_neg_counts := Dict.set (ppt_neg_counts loc) ppt neg;
       ppt_enabled := Dict.set (ppt_enabled loc) ppt true |}
  else
    {| ppt_age_ranges := ppt_age_ranges loc;
       ppt_pos_counts := ppt_pos_counts loc;
       ppt_neg_counts := ppt_neg_counts loc;
       ppt_enabled := Dict.set (ppt_enabled loc) ppt false |}.

(** One row of the per-PPT table in same-count mode. *)
Definition ppt_row_same (w : Widgets) (sfx : string)
    (maturity : Dict.t (Z * Z)) (epic_key : string) (is_selected : bool)
    (loc : ppt_locals) (ppt : string) : ppt_locals :=
  let enabled :=
    st_checkbox w is_selected
      ("ppt_enabled_all_" ++ epic_key ++ "_" ++ ppt ++ sfx) in
  let r := ppt_slider w sfx maturity epic_key ppt in
  if enabled then
    {| ppt_age_ranges := Dict.set (ppt_age_ranges loc) ppt r;
       ppt_pos_counts := ppt_pos_counts loc;
       ppt_neg_counts := ppt_neg_counts loc;
       ppt_enabled := Dict.set (ppt_enabled loc) ppt true |}
  else
    {| ppt_age_ranges := ppt_age_ranges loc;
       ppt_pos_counts := ppt_pos_counts loc;
       ppt_neg_counts := ppt_neg_counts loc;
       ppt_enabled := Dict.set (ppt_enabled loc) ppt false |}.

(** [any(ppt_enabled.values())] *)
Definition any (l : list bool) : bool := existsb (fun b => b) l.

(** The frequency check boxes: names are appended in table order. *)
Definition freq_checkbox (w : Widgets) (sfx : string) (is_selected : bool)
    (freq : string) : bool :=
  st_checkbox w is_selected ("freq_cb_" ++ freq ++ sfx).

Definition selected_frequencies (w : Widgets) (sfx : string)
    (is_selected : bool) : list string :=
  filter (freq_checkbox w sfx is_selected) frequency_options.

(** [frequency_map[f]]; every name of [frequency_options] is a key. *)
Definition frequency_code (f : string) : Z :=
  match Dict.get frequency_map f with Some c => c | None => 0%Z end.

Definition mapped_frequencies (w : Widgets) (sfx : string)
    (is_selected : bool) : list Z :=
  map frequency_code (selected_frequencies w sfx is_selected).

(** ** The four script variables of the main canvas *)

Record canvas : Type := {
  epic_counts : generation_spec;
  selected_epics : list string;
  epic_counts_rider : generation_spec;
  selected_epics_rider : list string
}.

Definition canvas_empty : canvas :=
  {| epic_counts := []; selected_epics := [];
     epic_counts_rider := []; selected_epics_rider := [] |}.

(** [selected_epics.append(k)] *)
Definition append_selected_epics (c : canvas) (k : string) : canvas :=
  {| epic_counts := epic_counts c;
     selected_epics := selected_epics c ++ [k];
     epic_counts_rider := epic_counts_rider c;
     selected_epics_rider := selected_epics_rider c |}.

(** [epic_counts[k] = p] *)
Definition set_epic_counts (c : canvas) (k : string) (p : payload) : canvas :=
  {| epic_counts := Dict.set (epic_counts c) k p;
     selected_epics := selected_epics c;
     epic_counts_rider := epic_counts_rider c;
     selected_epics_rider := selected_epics_rider c |}.

(** [epic_counts[k][k2] = v]; the script only does this after having made
    sure that [k] is a key. *)
Definition set_epic_counts_item (c : canvas) (k k2 : string) (v : pyval)
    : canvas :=
  match Dict.get (epic_counts c) k with
  | Some p => set_epic_counts c k (Dict.set p k2 v)
  | None => c
  end.

(** [selected_epics_rider.append(k)] *)
Definition append_selected_epics_rider (c : canvas) (k : string) : canvas :=
  {| epic_counts := epic_counts c;
     selected_epics := selected_epics c;
     epic_counts_rider := epic_counts_rider c;
     selected_epics_rider := selected_epics_rider c ++ [k] |}.

(** [epic_counts_rider[k] = p] *)
Definition set_epic_counts_rider (c : canvas) (k : string) (p : payload)
    : canvas :=
  {| epic_counts := epic_counts c;
     selected_epics := selected_epics c;
     epic_counts_rider := Dict.set (epic_counts_rider c) k p;
     selected_epics_rider := selected_epics_rider c |}.

Definition payload_ppt_individual (loc : ppt_locals) : payload :=
  [("ppt_age_ranges", dict_of VRange (ppt_age_ranges loc));
   ("ppt_pos_counts", dict_of VInt (ppt_pos_counts loc));
   ("ppt_neg_counts", dict_of VInt (ppt_neg_counts loc));
   ("ppt_enabled", dict_of VBool (ppt_enabled loc))].

Definition payload_ppt_same (loc : ppt_locals) (positive negative : Z)
    : payload :=
  [("ppt_age_ranges", dict_of VRange (ppt_age_ranges loc));
   ("ppt_enabled", dict_of VBool (ppt_enabled loc));
   ("positive", VInt positive);
   ("negative", VInt negative)].

Definition payload_frequency (positive negative : Z) (codes : list Z)
    : payload :=
  [("positive", VInt positive); ("negative", VInt negative);
   ("payment_frequency_options", VList codes)].

Definition payload_counts (positive negative : Z) : payload :=
  [("positive", VInt positive); ("negative", VInt negative)].

Definition tier_single_pay (min_sp max_sp positive negative : Z) : pyval :=
  VDict [("min_val", VInt min_sp); ("max_val", VInt max_sp);
         ("positive", VInt positive); ("negative", VInt negative)].

Definition tier_others (min_oth positive negative : Z) : pyval :=
  VDict [("min_val", VInt min_oth);
         ("positive", VInt positive); ("negative", VInt negative)].

Section Configure.
Variable w : Widgets.
Variable mode : count_mode.
Variables num_positive_global num_negative_global : Z.

(** Body of [for epic_key, epic_desc in epic_map.items()] (base tab).
    [Raised] when a widget call of the iteration raises: nothing has been
    assigned in the iteration by then. *)
Definition base_epic (select_all : bool) (c : canvas) (epic_key : string)
    : outcome canvas :=
  match mode with
  | SetIndividualCountsForEachEpic =>
      if is_ppt_epic epic_key then
        Returned (
        let is_selected := st_checkbox w select_all ("epic_cb_" ++ epic_key) in
        let loc :=
          fold_left
            (ppt_row_individual w "" maturity_age_ppt_ranges epic_key is_selected)
            ppt_names ppt_locals_empty in
        if is_selected && any (Dict.values (ppt_enabled loc)) then
          set_epic_counts (append_selected_epics c epic_key) epic_key
            (payload_ppt_individual loc)
        else c)
      else if String.eqb epic_key "PaymentFrequency" then
        Returned (
        let is_selected := st_checkbox w select_all ("epic_cb_" ++ epic_key) in
        let pos_count := st_number_input w 5 ("epic_pos_" ++ epic_key) in
        let neg_count := st_number_input w 5 ("epic_neg_" ++ epic_key) in
        let codes := mapped_frequencies w "" is_selected in
        if is_selected then
          set_epic_counts (append_selected_epics c epic_key) epic_key
            (payload_frequency pos_count neg_count codes)
        else c)
      else if String.eqb epic_key "SumAssuredValidation" then
        let is_selected := st_checkbox w select_all ("epic_cb_" ++ epic_key) in
        let sp := st_checkbox w is_selected ("sa_enabled_" ++ epic_key) in
        let min_sp := st_number_input w 2500000 ("min_sp_" ++ epic_key) in
        match st_number_input_min w min_sp 5000000 ("max_sp_" ++ epic_key) with
        | Raised e => Raised e
        | Returned max_sp =>
          Returned (
          let pos_sp := st_number_input w 5 ("pos_sp_" ++ epic_key) in
          let neg_sp := st_number_input w 5 ("neg_sp_" ++ epic_key) in
          let oth := st_checkbox w is_selected ("oth_enabled_" ++ epic_key) in
          let min_oth := st_number_input w 5000000 ("min_oth_" ++ epic_key) in
          let pos_oth := st_number_input w 5 ("pos_oth_" ++ epic_key) in
          let neg_oth := st_number_input w 5 ("neg_oth_" ++ epic_key) in
          if is_selected then
            let c1 := append_selected_epics c epic_key in
            let c2 := if negb (Dict.mem (epic_counts c1) epic_key)
                      then set_epic_counts c1 epic_key [] else c1 in
            let c3 := if sp
                      then set_epic_counts_item c2 epic_key "Single Pay"
                             (tier_single_pay min_sp max_sp
                                num_positive_global num_negative_global)
                      else c2 in
            if oth
            then set_epic_counts_item c3 epic_key "Others"
                   (tier_others min_oth num_positive_global num_negative_global)
            else c3
          else c)
        end
      else
        Returned (
        let is_selected := st_checkbox w select_all ("epic_cb_" ++ epic_key) in
        let pos_count := st_number_input w 5 ("epic_pos_" ++ epic_key) in
        let neg_count := st_number_input w 5 ("epic_neg_" ++ epic_key) in
        if is_selected then
          set_epic_counts (append_selected_epics c epic_key) epic_key
            (payload_counts pos_count neg_count)
        else c)
  | ApplySameCountToAllEpics =>
      if is_ppt_epic epic_key then
        Returned (
        let is_selected := st_checkbox w select_all ("epic_cb_" ++ epic_key) in
        let loc :=
          fold_left
            (ppt_row_same w "" maturity_age_ppt_ranges epic_key is_selected)
            ppt_names ppt_locals_empty in
        if is_selected && any (Dict.values (ppt_enabled loc)) then
          set_epic_counts (append_selected_epics c epic_key) epic_key
            (payload_ppt_same loc num_positive_global num_negative_global)
        else c)
      else if String.eqb epic_key "PaymentFrequency" then
        Returned (
        let is_selected := st_checkbox w select_all ("epic_cb_" ++ epic_key) in
        let codes := mapped_frequencies w "" is_selected in
        if is_selected then
          set_epic_counts (append_selected_epics c epic_key) epic_key
            (payload_frequency num_positive_global num_negative_global codes)
        else c)
      else if String.eqb epic_key "SumAssuredValidation" then
        let is_selected := st_checkbox w select_all ("epic_cb_" ++ epic_key) in
        let sp := st_checkbox w is_selected ("sa_enabled_" ++ epic_key) in
        let min_sp := st_number_input w 2500000 ("min_sp_" ++ epic_key) in
        match st_number_input_min w min_sp 5000000 ("max_sp_" ++ epic_key) with
        | Raised e => Raised e
        | Returned max_sp =>
          Returned (
          let oth := st_checkbox w is_selected ("oth_enabled_" ++ epic_key) in
          let min_oth := st_number_input w 5000000 ("min_oth_" ++ epic_key) in
          if is_selected then
            let c1 := append_selected_epics c epic_key in
            let c2 := if negb (Dict.mem (epic_counts c1) epic_key)
                      then set_epic_counts c1 epic_key [] else c1 in
            let c3 := if sp
                      then set_epic_counts_item c2 epic_key "Single Pay"
                             (tier_single_pay min_sp max_sp
                                num_positive_global num_negative_global)
                      else c2 in
            if oth
            then set_epic_counts_item c3 epic_key "Others"
                   (tier_others min_oth num_positive_global num_negative_global)
            else c3
          else c)
        end
      else
        Returned (
        let is_selected := st_checkbox w select_all ("epic_cb_" ++ epic_key) in
        if is_selected then
          set_epic_counts (append_selected_epics c epic_key) epic_key
            (payload_counts num_positive_global num_negative_global)
        else c)
  end.

(** What an iteration of the base loop assigns when its widget calls
    return. *)
Definition base_epic_assigns (select_all : bool) (c : canvas) (epic_key : string)
    : canvas :=
  match mode with
  | SetIndividualCountsForEachEpic =>
      if is_ppt_epic epic_key then
        let is_selected := st_checkbox w select_all ("epic_cb_" ++ epic_key) in
        let loc :=
          fold_left
            (ppt_row_individual w "" maturity_age_ppt_ranges epic_key is_selected)
            ppt_names ppt_locals_empty in
        if is_selected && any (Dict.values (ppt_enabled loc)) then
          set_epic_counts (append_selected_epics c epic_key) epic_key
            (payload_ppt_individual loc)
        else c
      else if String.eqb epic_key "PaymentFrequency" then
        let is_selected := st_checkbox w select_all ("epic_cb_" ++ epic_key) in
        let pos_count := st_number_input w 5 ("epic_pos_" ++ epic_key) in
        let neg_count := st_number_input w 5 ("epic_neg_" ++ epic_key) in
        let codes := mapped_frequencies w "" is_selected in
        if is_selected then
          set_epic_counts (append_selected_epics c epic_key) epic_key
            (payload_frequency pos_count neg_count codes)
        else c
      else if String.eqb epic_key "SumAssuredValidation" then
        let is_selected := st_checkbox w select_all ("epic_cb_" ++ epic_key) in
        let sp := st_checkbox w is_selected ("sa_enabled_" ++ epic_key) in
        let min_sp := st_number_input w 2500000 ("min_sp_" ++ epic_key) in
        let max_sp := st_number_input w 5000000 ("max_sp_" ++ epic_key) in
        let pos_sp := st_number_input w 5 ("pos_sp_" ++ epic_key) in
        let neg_sp := st_number_input w 5 ("neg_sp_" ++ epic_key) in
        let oth := st_checkbox w is_selected ("oth_enabled_" ++ epic_key) in
        let min_oth := st_number_input w 5000000 ("min_oth_" ++ epic_key) in
        let pos_oth := st_number_input w 5 ("pos_oth_" ++ epic_key) in
        let neg_oth := st_number_input w 5 ("neg_oth_" ++ epic_key) in
        if is_selected then
          let c1 := append_selected_epics c epic_key in
          let c2 := if negb (Dict.mem (epic_counts c1) epic_key)
                    then set_epic_counts c1 epic_key [] else c1 in
          let c3 := if sp
                    then set_epic_counts_item c2 epic_key "Single Pay"
                           (tier_single_pay min_sp max_sp
                              num_positive_global num_negative_global)
                    else c2 in
          if oth
          then set_epic_counts_item c3 epic_key "Others"
                 (tier_others min_oth num_positive_global num_negative_global)
          else c3
        else c
      else
        let is_selected := st_checkbox w select_all ("epic_cb_" ++ epic_key) in
        let pos_count := st_number_input w 5 ("epic_pos_" ++ epic_key) in
        let neg_count := st_number_input w 5 ("epic_neg_" ++ epic_key) in
        if is_selected then
          set_epic_counts (append_selected_epics c epic_key) epic_key
            (payload_counts pos_count neg_count)
        else c
  | ApplySameCountToAllEpics =>
      if is_ppt_epic epic_key then
        let is_selected := st_checkbox w select_all ("epic_cb_" ++ epic_key) in
        let loc :=
          fold_left
            (ppt_row_same w "" maturity_age_ppt_ranges epic_key is_selected)
            ppt_names ppt_locals_empty in
        if is_selected && any (Dict.values (ppt_enabled loc)) then
          set_epic_counts (append_selected_epics c epic_key) epic_key
            (payload_ppt_same loc num_positive_global num_negative_global)
        else c
      else if String.eqb epic_key "PaymentFrequency" then
        let is_selected := st_checkbox w select_all ("epic_cb_" ++ epic_key) in
        let codes := mapped_frequencies w "" is_selected in
        if is_selected then
          set_epic_counts (append_selected_epics c epic_key) epic_key
            (payload_frequency num_positive_global num_negative_global codes)
        else c
      else if String.eqb epic_key "SumAssuredValidation" then
        let is_selected := st_checkbox w select_all ("epic_cb_" ++ epic_key) in
        let sp := st_checkbox w is_selected ("sa_enabled_" ++ epic_key) in
        let min_sp := st_number_input w 2500000 ("min_sp_" ++ epic_key) in
        let max_sp := st_number_input w 5000000 ("max_sp_" ++ epic_key) in
        let oth := st_checkbox w is_selected ("oth_enabled_" ++ epic_key) in
        let min_oth := st_number_input w 5000000 ("min_oth_" ++ epic_key) in
        if is_selected then
          let c1 := append_selected_epics c epic_key in
          let c2 := if negb (Dict.mem (epic_counts c1) epic_key)
                    then set_epic_counts c1 epic_key [] else c1 in
          let c3 := if sp
                    then set_epic_counts_item c2 epic_key "Single Pay"
                           (tier_single_pay min_sp max_sp
                              num_positive_global num_negative_global)
                    else c2 in
          if oth
          then set_epic_counts_item c3 epic_key "Others"
                 (tier_others min_oth num_positive_global num_negative_global)
          else c3
        else c
      else
        let is_selected := st_checkbox w select_all ("epic_cb_" ++ epic_key) in
        if is_selected then
          set_epic_counts (append_selected_epics c epic_key) epic_key
            (payload_counts num_positive_global num_negative_global)
        else c
  end.

(** Body of [for epic_key, epic_desc in epic_map_rider.items()] (rider
    tab).  The payment-frequency branches append to [selected_epics] and
    assign into [epic_counts], as the script does. *)
Definition rider_epic (select_all_rider : bool) (c : canvas)
    (epic_key : string) : canvas :=
  match mode with
  | SetIndividualCountsForEachEpic =>
      if is_ppt_epic epic_key then
        let is_selected :=
          st_checkbox w select_all_rider ("epic_cb_" ++ epic_key ++ "_rider") in
        let loc :=
          fold_left
            (ppt_row_individual w "_rider" maturity_age_ppt_ranges_rider
               epic_key is_selected)
            ppt_names ppt_locals_empty in
        if is_selected && any (Dict.values (ppt_enabled loc)) then
          set_epic_counts_rider (append_selected_epics_rider c epic_key)
            epic_key (payload_ppt_individual loc)
        else c
      else if String.eqb epic_key "PaymentFrequency" then
        let is_selected :=
          st_checkbox w select_all_rider ("epic_cb_" ++ epic_key ++ "_rider") in
        let pos_count :=
          st_number_input w 5 ("epic_pos_" ++ epic_key ++ "_rider") in
        let neg_count :=
          st_number_input w 5 ("epic_neg_" ++ epic_key ++ "_rider") in
        let codes := mapped_frequencies w "_rider" is_selected in
        if is_selected then
          set_epic_counts (append_selected_epics c epic_key) epic_key
            (payload_frequency pos_count neg_count codes)
        else c
      else
        let is_selected :=
          st_checkbox w select_all_rider ("epic_cb_" ++ epic_key ++ "_rider") in
        let pos_count :=
          st_number_input w 5 ("epic_pos_" ++ epic_key ++ "_rider") in
        let neg_count :=
          st_number_input w 5 ("epic_neg_" ++ epic_key ++ "_rider") in
        if is_selected then
          set_epic_counts_rider (append_selected_epics_rider c epic_key)
            epic_key (payload_counts pos_count neg_count)
        else c
  | ApplySameCountToAllEpics =>
      if is_ppt_epic epic_key then
        let is_selected :=
          st_checkbox w select_all_rider ("epic_cb_" ++ epic_key ++ "_rider") in
        let loc :=
          fold_left
            (ppt_row_same w "_rider" maturity_age_ppt_ranges_rider
               epic_key is_selected)
            ppt_names ppt_locals_empty in
        if is_selected && any (Dict.values (ppt_enabled loc)) then
          set_epic_counts_rider (append_selected_epics_rider c epic_key)
            epic_key
            (payload_ppt_same loc num_positive_global num_negative_global)
        else c
      else if String.eqb epic_key "PaymentFrequency" then
        let is_selected :=
          st_checkbox w select_all_rider ("epic_cb_" ++ epic_key ++ "_rider") in
        let codes := mapped_frequencies w "_rider" is_selected in
        if is_selected then
          set_epic_counts (append_selected_epics c epic_key) epic_key
            (payload_frequency num_positive_global num_negative_global codes)
        else c
      else
        let is_selected :=
          st_checkbox w select_all_rider ("epic_cb_" ++ epic_key ++ "_rider") in
        if is_selected then
          set_epic_counts_rider (append_selected_epics_rider c epic_key)
            epic_key
            (payload_counts num_positive_global num_negative_global)
        else c
  end.

(** The loop of the base tab: the variables when the loop ends, and the
    exception that ended it, if any. *)
Fixpoint base_loop (select_all : bool) (keys : list string) (c : canvas)
    : canvas * option string :=
  match keys with
  | [] => (c, None)
  | epic_key :: keys' =>
      match base_epic select_all c epic_key with
      | Returned c' => base_loop select_all keys' c'
      | Raised e => (c, Some e)
      end
  end.

(** The base tab: all of [EPIC_MAP], in iteration order, as far as the
    loop gets. *)
Definition base_tab (epic_map : Dict.t string) (c : canvas) : canvas :=
  let select_all := st_checkbox w true "select_all_epics_master" in
  fst (base_loop select_all (Dict.keys epic_map) c).

(** The exception that leaves the base tab, if any. *)
Definition base_tab_exception (epic_map : Dict.t string) (c : canvas)
    : option string :=
  let select_all := st_checkbox w true "select_all_epics_master" in
  snd (base_loop select_all (Dict.keys epic_map) c).

(** The rider tab: all of [EPIC_MAP_RIDER], in iteration order. *)
Definition rider_tab (epic_map_rider : Dict.t string) (c : canvas) : canvas :=
  let select_all_rider := st_checkbox w true "select_all_epics_master_rider" in
  fold_left (rider_epic select_all_rider) (Dict.keys epic_map_rider) c.
End Configure.

(** ** Result sets *)

(** A cell of the table a product module returns. *)
Inductive cell : Type :=
| CStr (s : string)
| CInt (n : Z)
| CNaN.

Definition cell_eqb (a b : cell) : bool :=
  match a, b with
  | CStr s, CStr t => String.eqb s t
  | CInt n, CInt m => Z.eqb n m
  | _, _ => false
  end.

Definition isna (c : cell) : bool :=
  match c with CNaN => true | _ => false end.

(** A DataFrame: column labels and rows, every row having one cell per
    column. *)
Record DataFrame : Type := {
  columns : list string;
  rows : list (list cell)
}.

(** [len(df)] *)
Definition len (df : DataFrame) : nat := length (rows df).

(** [col in df.columns] *)
Definition has_column (df : DataFrame) (col : string) : bool :=
  existsb (String.eqb col) (columns df).

Fixpoint index_of (col : string) (cols : list string) : option nat :=
  match cols with
  | [] => None
  | c :: cols' =>
      if String.eqb c col then Some 0
      else option_map S (index_of col cols')
  end.

(** Number of columns that have the label. *)
Definition label_count (col : string) (cols : list string) : nat :=
  length (filter (String.eqb col) cols).

(** [df[col]] where the summary needs a column.  [None] stands for an
    exception: the [KeyError] of an unknown label, and, for a label that
    several columns have, the failure of the summary on the table that
    [df[col]] then is. *)
Definition getitem (df : DataFrame) (col : string) : option (list cell) :=
  match index_of col (columns df) with
  | Some i =>
      if Nat.eqb (label_count col (columns df)) 1
      then Some (map (fun r => nth i r CNaN) (rows df))
      else None
  | None => None
  end.

(** [Series.value_counts()]: occurrences of each value, missing values
    dropped, most frequent first. *)
Fixpoint bump (c : cell) (acc : list (cell * nat)) : list (cell * nat) :=
  match acc with
  | [] => [(c, 1)]
  | (c', n) :: acc' =>
      if cell_eqb c' c then (c', S n) :: acc' else (c', n) :: bump c acc'
  end.

Fixpoint insert_by_count (x : cell * nat) (l : list (cell * nat))
    : list (cell * nat) :=
  match l with
  | [] => [x]
  | y :: l' =>
      if Nat.leb (snd y) (snd x) then x :: y :: l' else y :: insert_by_count x l'
  end.

Definition value_counts (s : list cell) : list (cell * nat) :=
  let tally :=
    fold_left (fun acc c => if isna c then acc else bump c acc) s [] in
  fold_right insert_by_count [] tally.

(** [counts.get(key, 0)] *)
Fixpoint counts_get (counts : list (cell * nat)) (key : cell) : nat :=
  match counts with
  | [] => 0
  | (c, n) :: counts' => if cell_eqb c key then n else counts_get counts' key
  end.

(** ** Result Aggregator *)

(** What the epic expander shows. *)
Inductive epic_panel : Type :=
| NoPanel
| BarChart (epic_counts : list (cell * nat))
| Caption.

(** What [display_generation_summary] puts on the page. *)
Record summary : Type := {
  total_cases_summary : nat;
  positive_cases : nat;
  negative_cases : nat;
  panel : epic_panel
}.

(** The per-category distribution that is charted. *)
Definition distribution (s : summary) : list (cell * nat) :=
  match panel s with BarChart d => d | _ => [] end.

(** [display_generation_summary(df_results)]; [None] stands for an
    exception leaving the function. *)
Definition display_generation_summary (df_results : DataFrame)
    : option summary :=
  let total := len df_results in
  match
    (if has_column df_results "Test_Type" then
       match getitem df_results "Test_Type" with
       | Some col =>
           let test_type_counts := value_counts col in
           Some (counts_get test_type_counts (CStr "Positive"),
                 counts_get test_type_counts (CStr "Negative"))
       | None => None
       end
     else Some (0, 0))
  with
  | None => None
  | Some (positive, negative) =>
      if has_column df_results "Epic" then
        match getitem df_results "Epic" with
        | Some col =>
            let epic_counts := value_counts col in
            Some {| total_cases_summary := total;
                    positive_cases := positive;
                    negative_cases := negative;
                    panel := match epic_counts with
                             | [] => Caption
                             | _ => BarChart epic_counts
                             end |}
        | None => None
        end
      else
        Some {| total_cases_summary := total;
                positive_cases := positive;
                negative_cases := negative;
                panel := NoPanel |}
  end.

(** [needle in hay] on strings. *)
Fixpoint contains (needle hay : string) : bool :=
  if String.prefix needle hay then true
  else match hay with
       | EmptyString => false
       | String _ hay' => contains needle hay'
       end.

Definition fail_style : string := "background-color: #FFE0E0; color: #A00000;".
Definition pass_style : string := "background-color: #E0FFE0; color: #006000;".

Definition get_style (val_str : string) : string :=
  if contains "Fail" val_str then fail_style
  else if String.eqb val_str "Pass" then pass_style
  else "".

Section Highlight.
(** Python's [str] on the values of a column. *)
Variable value : Type.
Variable str : value -> string.

Definition highlight_rule_outcomes (s : list value) : list string :=
  map (fun v => get_style (str v)) s.
End Highlight.

(** ** Sampling *)

(** Removes position [i] of a list. *)
Fixpoint remove_at {A : Type} (i : nat) (l : list A) {struct l} : list A :=
  match l, i with
  | [], _ => []
  | _ :: l', 0 => l'
  | x :: l', S i' => x :: remove_at i' l'
  end.

(** [n] draws from [pool] without replacement; the [k]-th draw takes
    position [rng k] modulo the number of remaining elements. *)
Fixpoint choice (rng : nat -> nat) (pool : list nat) (n k : nat) : list nat :=
  match n with
  | 0 => []
  | S n' =>
      match pool with
      | [] => []
      | _ :: _ =>
          let i := rng k mod length pool in
          nth i pool 0 :: choice rng (remove_at i pool) n' (S k)
      end
  end.

(** Row positions chosen by [df.sample(n)]. *)
Definition sample_positions (rng : nat -> nat) (df : DataFrame) (n : nat)
    : list nat :=
  choice rng (seq 0 (len df)) n 0.

(** [df.sample(n)] with the default [replace=False]: [None] stands for the
    [ValueError] raised when [n] exceeds the number of rows.  [rng] is the
    source of randomness. *)
Definition DataFrame_sample (rng : nat -> nat) (df : DataFrame) (n : nat)
    : option DataFrame :=
  if Nat.ltb (len df) n then None
  else Some {| columns := columns df;
               rows := map (fun i => nth i (rows df) [])
                         (sample_positions rng df n) |}.

(** [df.sample(min(n, len(df)))]; the script uses [n = 10]. *)
Definition sample (rng : nat -> nat) (df : DataFrame) (n : nat)
    : option DataFrame :=
  DataFrame_sample rng df (Nat.min n (len df)).

Definition sample_df (rng : nat -> nat) (df_to_display : DataFrame)
    : option DataFrame :=
  sample rng df_to_display 10.

(** ** Module Registry and Loader *)

(** Python string methods used on file names (ASCII letters). *)
Definition is_upper (c : ascii) : bool :=
  let n := nat_of_ascii c in Nat.leb 65 n && Nat.leb n 90.

Definition is_lower (c : ascii) : bool :=
  let n := nat_of_ascii c in Nat.leb 97 n && Nat.leb n 122.

Definition to_upper (c : ascii) : ascii :=
  if is_lower c then ascii_of_nat (nat_of_ascii c - 32) else c.

Definition to_lower (c : ascii) : ascii :=
  if is_upper c then ascii_of_nat (nat_of_ascii c + 32) else c.

(** [s.replace("_", " ")] *)
Fixpoint replace_underscores (s : string) : string :=
  match s with
  | EmptyString => EmptyString
  | String c s' =>
      String (if Ascii.eqb c "_" then " "%char else c) (replace_underscores s')
  end.

(** [s.title()] on ASCII text: a letter that follows a letter is lowered,
    any other letter is raised. *)
Fixpoint title_from (after_letter : bool) (s : string) : string :=
  match s with
  | EmptyString => EmptyString
  | String c s' =>
      if is_upper c || is_lower c then
        String (if after_letter then to_lower c else to_upper c)
          (title_from true s')
      else String c (title_from false s')
  end.

Definition title (s : string) : string := title_from false s.

(** The text has ASCII characters only. *)
Fixpoint is_ascii (s : string) : bool :=
  match s with
  | EmptyString => true
  | String c s' => Nat.ltb (nat_of_ascii c) 128 && is_ascii s'
  end.

(** [s.endswith(suffix)], [s.startswith(prefix)], [s[:-3]] *)
Definition endswith (s suffix : string) : bool :=
  Nat.leb (String.length suffix) (String.length s)
  && String.eqb
       (substring (String.length s - String.length suffix)
          (String.length suffix) s) suffix.

Definition startswith (s pre : string) : bool := String.prefix pre s.

Definition drop_last3 (s : string) : string :=
  substring 0 (String.length s - 3) s.

(** What executing a module file defines.  An attribute that is absent is
    [None]; [generate_test_cases] is [None] also when it is not callable. *)
Record logic_module : Type := {
  MODULE_NAME : option string;
  EPIC_MAP : option (Dict.t string);
  EPIC_MAP_RIDER : option (Dict.t string);
  generate_test_cases :
    option (generation_spec -> list string ->
            generation_spec -> list string -> outcome DataFrame)
}.

(** The [logic_modules] directory as the script sees it in one run. *)
Record environment : Type := {
  dir_exists : bool;
  (** [os.listdir]; [Raised] when the call raises. *)
  listdir : outcome (list string);
  (** Executing the file with the given stem. *)
  exec_module : string -> outcome logic_module;
  (** [str.title()] on text that is not all ASCII, where the case rules of
      Unicode apply. *)
  unicode_title : string -> string
}.

(** [module_name_py_file.replace("_", " ").title()] *)
Definition derived_title (env : environment) (module_name_py_file : string)
    : string :=
  let spaced := replace_underscores module_name_py_file in
  if is_ascii spaced then title spaced else unicode_title env spaced.

(** Body of the loop over [os.listdir(LOGIC_MODULE_DIR)]. *)
Definition register_file (env : environment) (modules : Dict.t string)
    (filename : string) : Dict.t string :=
  if endswith filename ".py" && negb (startswith filename "__") then
    let module_name_py_file := drop_last3 filename in
    match exec_module env module_name_py_file with
    | Returned module_obj =>
        let display_name :=
          match MODULE_NAME module_obj with
          | Some name => name
          | None => derived_title env module_name_py_file
          end in
        Dict.set modules display_name module_name_py_file
    | Raised _ =>
        Dict.set modules (derived_title env module_name_py_file)
          module_name_py_file
    end
  else modules.

Definition get_available_logic_modules (env : environment) : Dict.t string :=
  if negb (dir_exists env) then []
  else match listdir env with
       | Returned filenames => fold_left (register_file env) filenames []
       | Raised _ => []
       end.

(** [load_logic_module(module_name_py)]: [None] when executing the file
    raises. *)
Definition load_logic_module (env : environment) (module_name_py : string)
    : option logic_module :=
  match exec_module env module_name_py with
  | Returned logic_module => Some logic_module
  | Raised _ => None
  end.

(** ** Session state and the script *)

Record session_state : Type := {
  generated_df : option DataFrame;
  selected_module_name_py : option string;
  selected_display_name : option string;
  processing : bool;
  epic_counts_to_generate : generation_spec;
  epic_counts_to_generate_rider : generation_spec
}.

(** The state after the initialisation block of a new session. *)
Definition initial_session : session_state :=
  {| generated_df := None;
     selected_module_name_py := None;
     selected_display_name := None;
     processing := false;
     epic_counts_to_generate := [];
     epic_counts_to_generate_rider := [] |}.

(** What the user and the file system contribute to one run. *)
Record run_input : Type := {
  env : environment;
  widgets : Widgets;
  (** the product chosen in the select box, if the user chose one *)
  selectbox_state : option string;
  count_mode_selector : count_mode;
  (** the button whose click triggered this run *)
  generate_clicked : bool;
  clear_clicked : bool
}.

(** Status messages of the script. *)
Inductive message : Type :=
| ErrorModuleDirectory
| ErrorLoadingModule (module_name_py e : string)
| WarningSelectProduct
| WarningSelectEpic
| SuccessGenerated (n : nat)
| ErrorDuringGeneration (e : string)
| ErrorNoGenerateFunction
| ErrorFailedToLoad
| UncaughtException (e : string).

(** Outcome of one run: the session state it leaves, the messages it
    shows and the calls it made to the generation entry point. *)
Record run_result : Type := {
  session : session_state;
  messages : list message;
  entry_point_calls : list (outcome DataFrame)
}.

(** Truth value of [st.session_state.selected_module_name_py]. *)
Definition truthy (name : option string) : bool :=
  match name with
  | Some s => negb (String.eqb s "")
  | None => false
  end.

Definition name_of (name : option string) : string :=
  match name with Some s => s | None => "" end.

(** [st.selectbox(options=..., index=...)] returns a member of its options. *)
Definition st_selectbox (options : list string) (index : nat)
    (state : option string) : string :=
  match state with
  | Some x =>
      if existsb (String.eqb x) options then x else nth index options ""
  | None => nth index options ""
  end.

(** [st.button(..., disabled=...)]: a disabled button is never clicked. *)
Definition st_button (clicked disabled : bool) : bool :=
  clicked && negb disabled.

(** [l.index(x)] for an [x] of [l]. *)
Fixpoint list_index (x : string) (l : list string) : nat :=
  match l with
  | [] => 0
  | y :: l' => if String.eqb y x then 0 else S (list_index x l')
  end.

(** Messages of [load_logic_module]. *)
Definition load_messages (env : environment) (module_name_py : string)
    : list message :=
  match exec_module env module_name_py with
  | Returned _ => []
  | Raised e => [ErrorLoadingModule module_name_py e]
  end.

(** Lines 166-826: the two tabs of the main canvas: the four variables
    when the section ends, and the exception that ended it, if any.  An
    exception in the base tab leaves the script, so the rider tab is not
    reached. *)
Definition main_canvas_run (i : run_input) (s : session_state)
    (num_positive_global num_negative_global : Z) : canvas * option string :=
  if truthy (selected_module_name_py s)
     && match generated_df s with None => true | Some _ => false end
  then
    let name := name_of (selected_module_name_py s) in
    let base :=
      match load_logic_module (env i) name with
      | Some logic_module =>
          match EPIC_MAP logic_module with
          | Some epic_map =>
              (base_tab (widgets i) (count_mode_selector i)
                 num_positive_global num_negative_global epic_map canvas_empty,
               base_tab_exception (widgets i) (count_mode_selector i)
                 num_positive_global num_negative_global epic_map canvas_empty)
          | None => (canvas_empty, None)
          end
      | None => (canvas_empty, None)
      end in
    match snd base with
    | Some e => (fst base, Some e)
    | None =>
        match load_logic_module (env i) name with
        | Some logic_module =>
            match EPIC_MAP_RIDER logic_module with
            | Some epic_map_rider =>
                (rider_tab (widgets i) (count_mode_selector i)
                   num_positive_global num_negative_global epic_map_rider
                   (fst base), None)
            | None => (fst base, None)
            end
        | None => (fst base, None)
        end
    end
  else (canvas_empty, None).

Definition main_canvas (i : run_input) (s : session_state)
    (num_positive_global num_negative_global : Z) : canvas :=
  fst (main_canvas_run i s num_positive_global num_negative_global).

Definition main_canvas_exception (i : run_input) (s : session_state)
    (num_positive_global num_negative_global : Z) : option string :=
  snd (main_canvas_run i s num_positive_global num_negative_global).

(** Lines 850-875: the generation step.  It ends in [st.rerun()]. *)
Definition generation (e : environment) (s : session_state) : run_result :=
  let name := name_of (selected_module_name_py s) in
  let finish (df : option DataFrame) (msgs : list message)
             (calls : list (outcome DataFrame)) :=
    {| session :=
         {| generated_df := df;
            selected_module_name_py := selected_module_name_py s;
            selected_display_name := selected_display_name s;
            processing := false;
            epic_counts_to_generate := epic_counts_to_generate s;
            epic_counts_to_generate_rider := epic_counts_to_generate_rider s |};
       messages := msgs;
       entry_point_calls := calls |} in
  match load_logic_module e name with
  | Some logic_module =>
      match generate_test_cases logic_module with
      | Some generate =>
          let r := generate (epic_counts_to_generate s)
                     (Dict.keys (epic_counts_to_generate s))
                     (epic_counts_to_generate_rider s)
                     (Dict.keys (epic_counts_to_generate_rider s)) in
          match r with
          | Returned df => finish (Some df) [SuccessGenerated (len df)] [r]
          | Raised exn => finish None [ErrorDuringGeneration exn] [r]
          end
      | None => finish None [ErrorNoGenerateFunction] []
      end
  | None => finish None (load_messages e name ++ [ErrorFailedToLoad]) []
  end.

(** One execution of the script, from the top to its end, to [st.stop()],
    to the first [st.rerun()] or to an exception that leaves the script. *)
Definition script (i : run_input) (s : session_state) : run_result :=
  let available_modules := get_available_logic_modules (env i) in
  match available_modules with
  | [] => {| session := s; messages := [ErrorModuleDirectory];
             entry_point_calls := [] |}
  | _ :: _ =>
      let display_names := Dict.keys available_modules in
      let default_index :=
        match selected_display_name s with
        | Some d => if existsb (String.eqb d) display_names
                    then list_index d display_names else 0
        | None => 0
        end in
      let selected_display_name_from_ui :=
        st_selectbox display_names default_index (selectbox_state i) in
      if negb match selected_display_name s with
              | Some d => String.eqb selected_display_name_from_ui d
              | None => false
              end
      then
        {| session :=
             {| generated_df := None;
                selected_module_name_py :=
                  Dict.get available_modules selected_display_name_from_ui;
                selected_display_name := Some selected_display_name_from_ui;
                processing := false;
                epic_counts_to_generate := epic_counts_to_generate s;
                epic_counts_to_generate_rider :=
                  epic_counts_to_generate_rider s |};
           messages := []; entry_point_calls := [] |}
      else
        let num_positive_global :=
          match count_mode_selector i with
          | ApplySameCountToAllEpics =>
              st_number_input (widgets i) 5 "Positive Cases"
          | SetIndividualCountsForEachEpic => 5%Z
          end in
        let num_negative_global :=
          match count_mode_selector i with
          | ApplySameCountToAllEpics =>
              st_number_input (widgets i) 5 "Negative Cases"
          | SetIndividualCountsForEachEpic => 5%Z
          end in
        let c := main_canvas i s num_positive_global num_negative_global in
        let canvas_messages :=
          if truthy (selected_module_name_py s)
             && match generated_df s with None => true | Some _ => false end
          then load_messages (env i) (name_of (selected_module_name_py s))
               ++ load_messages (env i) (name_of (selected_module_name_py s))
          else [] in
        match main_canvas_exception i s num_positive_global
                num_negative_global with
        | Some e =>
            {| session := s;
               messages :=
                 load_messages (env i) (name_of (selected_module_name_py s))
                 ++ [UncaughtException e];
               entry_point_calls := [] |}
        | None =>
        let generate_pressed := st_button (generate_clicked i) (processing s) in
        if generate_pressed && truthy (selected_module_name_py s)
           && negb match selected_epics c, selected_epics_rider c with
                   | [], [] => true
                   | _, _ => false
                   end
        then
          {| session :=
               {| generated_df := generated_df s;
                  selected_module_name_py := selected_module_name_py s;
                  selected_display_name := selected_display_name s;
                  processing := true;
                  epic_counts_to_generate := epic_counts c;
                  epic_counts_to_generate_rider := epic_counts_rider c |};
             messages := canvas_messages; entry_point_calls := [] |}
        else
          let button_messages :=
            if generate_pressed then
              if negb (truthy (selected_module_name_py s))
              then [WarningSelectProduct] else [WarningSelectEpic]
            else [] in
          if match generated_df s with Some _ => true | None => false end
             && st_button (clear_clicked i) (processing s)
          then
            {| session :=
                 {| generated_df := None;
                    selected_module_name_py := selected_module_name_py s;
                    selected_display_name := selected_display_name s;
                    processing := false;
                    epic_counts_to_generate := epic_counts_to_generate s;
                    epic_counts_to_generate_rider :=
                      epic_counts_to_generate_rider s |};
               messages := canvas_messages ++ button_messages;
               entry_point_calls := [] |}
          else if processing s && truthy (selected_module_name_py s) then
            let r := generation (env i) s in
            {| session := session r;
               messages := canvas_messages ++ button_messages ++ messages r;
               entry_point_calls := entry_point_calls r |}
          else
            {| session := s;
               messages := canvas_messages ++ button_messages;
               entry_point_calls := [] |}
        end
  end.

(** Session states a session can be in between two runs. *)
Inductive reachable : session_state -> Prop :=
| reachable_initial : reachable initial_session
| reachable_run (i : run_input) (s : session_state) :
    reachable s -> reachable (session (script i s)).

(** ** Notions used in the statements *)

(** The check-box key of one PPT row, by count mode and tab suffix. *)
Definition ppt_enabled_key (mode : count_mode) (sfx epic_key ppt : string)
    : string :=
  match mode with
  | SetIndividualCountsForEachEpic =>
      "ppt_enabled_" ++ epic_key ++ "_" ++ ppt ++ sfx
  | ApplySameCountToAllEpics =>
      "ppt_enabled_all_" ++ epic_key ++ "_" ++ ppt ++ sfx
  end.

(** [k] has the same entry in the base spec and the same membership in the
    base key list before and after. *)
Definition base_same_at (k : string) (c c' : canvas) : Prop :=
  Dict.get (epic_counts c') k = Dict.get (epic_counts c) k
  /\ (In k (selected_epics c') <-> In k (selected_epics c)).

Definition rider_same_at (k : string) (c c' : canvas) : Prop :=
  Dict.get (epic_counts_rider c') k = Dict.get (epic_counts_rider c) k
  /\ (In k (selected_epics_rider c') <-> In k (selected_epics_rider c)).

(** Splits the body of an epic loop into its branches. *)
Ltac branches :=
  repeat match goal with
         | |- context [match ?m with
                       | ApplySameCountToAllEpics => _
                       | SetIndividualCountsForEachEpic => _
                       end] => destruct m
         | |- context [if ?b then _ else _] => destruct b eqn:?
         end.

(** The entry is missing or empty. *)
Definition sav_fresh (c : canvas) : Prop :=
  Dict.get (epic_counts c) "SumAssuredValidation" = None
  \/ Dict.get (epic_counts c) "SumAssuredValidation" = Some [].

(** The entry is empty and the key is listed. *)
Definition sav_kept (c : canvas) : Prop :=
  Dict.get (epic_counts c) "SumAssuredValidation" = Some []
  /\ In "SumAssuredValidation" (selected_epics c).

(** Case analysis on the five frequency check boxes. *)
Ltac frequency_cases w sfx is_selected :=
  destruct (freq_checkbox w sfx is_selected "Annual"),
           (freq_checkbox w sfx is_selected "Half-Yearly"),
           (freq_checkbox w sfx is_selected "Quarterly"),
           (freq_checkbox w sfx is_selected "Monthly"),
           (freq_checkbox w sfx is_selected "Single Pay").


(** The files the listing considers. *)
Definition eligible (filename : string) : bool :=
  endswith filename ".py" && negb (startswith filename "__").

(** The key under which the file with the given stem is registered. *)
Definition display_name_of (env : environment) (stem : string) : string :=
  match exec_module env stem with
  | Returned module_obj =>
      match MODULE_NAME module_obj with
      | Some name => name
      | None => derived_title env stem
      end
  | Raised _ => derived_title env stem
  end.

(** A stored result and a pending generation exclude each other. *)
Definition idle_or_empty (s : session_state) : Prop :=
  processing s = true -> generated_df s = None.

(** The key of a file of the directory. *)
Definition file_key (env : environment) (filename : string) : string :=
  display_name_of env (drop_last3 filename).

(** The iteration of the base loop for this key raises: it is the
    SumAssuredValidation iteration and the entered Single Pay minimum is
    above the default 5000000 of the maximum. *)
Definition base_epic_raises (w : Widgets) (epic_key : string) : bool :=
  negb (is_ppt_epic epic_key)
  && negb (String.eqb epic_key "PaymentFrequency")
  && String.eqb epic_key "SumAssuredValidation"
  && Z.ltb 5000000 (st_number_input w 2500000 ("min_sp_" ++ epic_key)).

(** The keys whose iteration the base loop completes. *)
Fixpoint reached_keys (w : Widgets) (keys : list string) : list string :=
  match keys with
  | [] => []
  | k :: keys' =>
      if base_epic_raises w k then [] else k :: reached_keys w keys'
  end.

(** ** Concrete inputs used in the examples *)

(** Widget state given by the boxes and number fields the user touched. *)
Definition widgets_of (checkboxes : Dict.t bool) (numbers : Dict.t Z)
    : Widgets :=
  {| checkbox_state := Dict.get checkboxes;
     number_input_state := Dict.get numbers;
     slider_state := fun _ => None;
     range_slider_state := fun _ => None |}.

Definition untouched : Widgets := widgets_of [] [].

Definition two_rows : DataFrame :=
  {| columns := ["Test_Type"; "Epic"; "Rule_Age"];
     rows := [[CStr "Positive"; CStr "EntryAge"; CStr "Pass"];
              [CStr "Negative"; CStr "EntryAge"; CStr "Fail: age"]] |}.

Definition three_rows : DataFrame :=
  {| columns := ["Epic"];
     rows := [[CStr "EntryAge"]; [CStr "PolicyTerm"]; [CStr "EntryAge"]] |}.

Definition no_rows : DataFrame :=
  {| columns := ["Test_Type"; "Epic"]; rows := [] |}.

Definition generate_raising
    : generation_spec -> list string -> generation_spec -> list string ->
      outcome DataFrame :=
  fun _ _ _ _ => Raised "ValueError".

(** A product module with base and rider epics. *)
Definition term_plan : logic_module :=
  {| MODULE_NAME := None;
     EPIC_MAP :=
       Some [("EntryAge", "Entry age"); ("PaymentFrequency", "Frequency");
             ("SumAssuredValidation", "Sum assured");
             ("Occupation", "Occupation")];
     EPIC_MAP_RIDER :=
       Some [("EntryAge", "Rider entry age");
             ("PaymentFrequency", "Rider frequency")];
     generate_test_cases := Some generate_raising |}.

Definition logic_modules : environment :=
  {| dir_exists := true;
     listdir := Returned ["term_plan.py"; "__init__.py"; "broken_module.py";
                          "README.md"];
     exec_module := fun stem =>
       if String.eqb stem "term_plan" then Returned term_plan
       else Raised "SyntaxError";
     unicode_title := fun s => s |}.

Definition run_with (w : Widgets) (mode : count_mode) (generate : bool)
    : run_input :=
  {| env := logic_modules; widgets := w; selectbox_state := None;
     count_mode_selector := mode; generate_clicked := generate;
     clear_clicked := false |}.

(** The session after the product was selected. *)
Definition session_selected : session_state :=
  session (script (run_with untouched ApplySameCountToAllEpics false)
             initial_session).

(** The session after Generate was clicked with the default widgets. *)
Definition session_pending : session_state :=
  session (script (run_with untouched ApplySameCountToAllEpics true)
             session_selected).

(** All six PPT boxes of EntryAge unchecked, in both tabs, same-count mode. *)
Definition entry_age_variants_off : Widgets :=
  widgets_of
    (map (fun ppt : string =>
            (("ppt_enabled_all_EntryAge_" ++ ppt)%string, false)) ppt_names
     ++ map (fun ppt : string =>
               (("ppt_enabled_all_EntryAge_" ++ ppt ++ "_rider")%string, false))
          ppt_names)
    [].

(** Monthly checked first and Annual second, the other three unchecked. *)
Definition monthly_and_annual : Widgets :=
  widgets_of
    [("freq_cb_Monthly", true); ("freq_cb_Annual", true);
     ("freq_cb_Half-Yearly", false); ("freq_cb_Quarterly", false);
     ("freq_cb_Single Pay", false)]
    [].

(** Both tiers of SumAssuredValidation unchecked. *)
Definition sum_assured_tiers_off : Widgets :=
  widgets_of
    [("sa_enabled_SumAssuredValidation", false);
     ("oth_enabled_SumAssuredValidation", false)]
    [].

(** Individual counts entered for the two tiers of SumAssuredValidation. *)
Definition sum_assured_tier_counts : Widgets :=
  widgets_of []
    [("pos_sp_SumAssuredValidation", 7); ("neg_sp_SumAssuredValidation", 3);
     ("pos_oth_SumAssuredValidation", 2); ("neg_oth_SumAssuredValidation", 1)]%Z.

(** Base PaymentFrequency deselected; rider PaymentFrequency selected with
    its own counts. *)
Definition rider_frequency_only : Widgets :=
  widgets_of
    [("epic_cb_PaymentFrequency", false)]
    [("epic_pos_PaymentFrequency_rider", 7);
     ("epic_neg_PaymentFrequency_rider", 3)]%Z.

Definition frequency_in_both : Dict.t string :=
  [("PaymentFrequency", "Frequency")].

Definition draws (k : nat) : nat := 7 * k + 3.

(** ** Notions used in the further properties *)

(** Every key of the key list has an entry in the spec, in both families. *)
Definition listed_have_payload (c : canvas) : Prop :=
  (forall k, In k (selected_epics c) -> In k (Dict.keys (epic_counts c)))
  /\ (forall k, In k (selected_epics_rider c) ->
        In k (Dict.keys (epic_counts_rider c))).

(** The master check boxes of both tabs unchecked, nothing else touched. *)
Definition masters_off : Widgets :=
  widgets_of
    [("select_all_epics_master", false);
     ("select_all_epics_master_rider", false)]
    [].

(** The enable check box of one PPT row as the loop reads it. *)
Definition ppt_checkbox (w : Widgets) (mode : count_mode) (sfx : string)
    (epic_key : string) (is_selected : bool) (ppt : string) : bool :=
  st_checkbox w is_selected (ppt_enabled_key mode sfx epic_key ppt).

(** An epic of the base tab is selected and, when it is PPT-ranged, has a
    PPT row enabled. *)
Definition contributes (w : Widgets) (mode : count_mode) (epic_key : string)
    : bool :=
  let select_all := st_checkbox w true "select_all_epics_master" in
  let is_selected := st_checkbox w select_all ("epic_cb_" ++ epic_key) in
  is_selected
  && (negb (is_ppt_epic epic_key)
      || existsb (ppt_checkbox w mode "" epic_key is_selected) ppt_names).

(** A dictionary carries the given positive and negative counts. *)
Definition counts_are (positive negative : Z) (d : Dict.t pyval) : Prop :=
  Dict.get d "positive" = Some (VInt positive)
  /\ Dict.get d "negative" = Some (VInt negative).

(** A tier entry: a dictionary with the given counts. *)
Definition tier_counts_are (positive negative : Z) (v : pyval) : Prop :=
  exists d, v = VDict d /\ counts_are positive negative d.

(** Every tier of a tiered payload carries the given counts. *)
Definition tiers_counts_are (positive negative : Z) (p : payload) : Prop :=
  forall tier v, Dict.get p tier = Some v ->
    tier_counts_are positive negative v.

(** The payload of a key of the base spec carries the given counts: in
    each of its tiers under SumAssuredValidation, whose payload holds
    tiers only, and at its top level under every other key. *)
Definition base_payload_counts_are (positive negative : Z)
    (epic_key : string) (p : payload) : Prop :=
  if String.eqb epic_key "SumAssuredValidation"
  then tiers_counts_are positive negative p
  else counts_are positive negative p.

(** Every payload of both specs carries the given counts. *)
Definition all_counts_are (positive negative : Z) (c : canvas) : Prop :=
  (forall k p, Dict.get (epic_counts c) k = Some p ->
     base_payload_counts_are positive negative k p)
  /\ (forall k p, Dict.get (epic_counts_rider c) k = Some p ->
        counts_are positive negative p).

(** A pending generation has a selected module and something to generate. *)
Definition pending_has_work (s : session_state) : Prop :=
  processing s = true ->
  truthy (selected_module_name_py s) = true
  /\ (epic_counts_to_generate s <> []
      \/ epic_counts_to_generate_rider s <> []).

(** A product module whose entry point returns a table of two rows. *)
Definition generate_two_rows
    : generation_spec -> list string -> generation_spec -> list string ->
      outcome DataFrame :=
  fun _ _ _ _ => Returned two_rows.

Definition endowment : logic_module :=
  {| MODULE_NAME := Some "Endowment Plus";
     EPIC_MAP := Some [("EntryAge", "Entry age"); ("Occupation", "Occupation")];
     EPIC_MAP_RIDER := None;
     generate_test_cases := Some generate_two_rows |}.

(** A directory with one working module. *)
Definition one_module : environment :=
  {| dir_exists := true;
     listdir := Returned ["endowment.py"];
     exec_module := fun stem =>
       if String.eqb stem "endowment" then Returned endowment
       else Raised "FileNotFoundError";
     unicode_title := fun s => s |}.

Definition run_endowment (generate : bool) : run_input :=
  {| env := one_module; widgets := untouched; selectbox_state := None;
     count_mode_selector := ApplySameCountToAllEpics;
     generate_clicked := generate; clear_clicked := false |}.

(** The sessions after selecting the product, after clicking Generate and
    after the generation run. *)
Definition endowment_selected : session_state :=
  session (script (run_endowment false) initial_session).

Definition endowment_pending : session_state :=
  session (script (run_endowment true) endowment_selected).


(** A directory in which two files derive the same title. *)
Definition colliding_titles : environment :=
  {| dir_exists := true;
     listdir := Returned ["term_plan.py"; "TERM_PLAN.py"; "notes.txt"];
     exec_module := fun _ => Raised "SyntaxError";
     unicode_title := fun s => s |}.

(** Number of cells of a column equal to a value. *)
Definition occurrences (v : cell) (col : list cell) : nat :=
  length (filter (cell_eqb v) col).

(** Most frequent first. *)
Definition count_ge (a b : cell * nat) : Prop := snd b <= snd a.

(** The counted values are present, pairwise distinct, each with a positive
    count. *)
Definition tally_ok (acc : list (cell * nat)) : Prop :=
  NoDup (map fst acc)
  /\ Forall (fun p => isna (fst p) = false /\ 1 <= snd p) acc.

(** A key that selects none of the special branches of the epic loops. *)
Definition is_generic_epic (epic_key : string) : bool :=
  negb (is_ppt_epic epic_key)
  && negb (String.eqb epic_key "PaymentFrequency")
  && negb (String.eqb epic_key "SumAssuredValidation").

(** The counts a generic epic of the base tab is given. *)
Definition generic_counts (w : Widgets) (mode : count_mode) (gp gn : Z)
    (epic_key : string) : payload :=
  match mode with
  | ApplySameCountToAllEpics => payload_counts gp gn
  | SetIndividualCountsForEachEpic =>
      payload_counts (st_number_input w 5 ("epic_pos_" ++ epic_key))
        (st_number_input w 5 ("epic_neg_" ++ epic_key))
  end.

(** Individual counts entered for the generic epic Occupation. *)
Definition occupation_counts : Widgets :=
  widgets_of []
    [("epic_pos_Occupation", 12); ("epic_neg_Occupation", 0)]%Z.


(** SumAssuredValidation selected, both tiers unchecked, and a Single Pay
    minimum above 5000000. *)
Definition single_pay_minimum_high : Widgets :=
  widgets_of
    [("sa_enabled_SumAssuredValidation", false);
     ("oth_enabled_SumAssuredValidation", false)]
    [("min_sp_SumAssuredValidation", 6000000)]%Z.

(** A table in which two columns have the label [Test_Type]. *)
Definition duplicate_test_type : DataFrame :=
  {| columns := ["Test_Type"; "Test_Type"];
     rows := [[CStr "Positive"; CStr "Negative"]] |}.



(** * Properties *)

(** ** Dictionaries *)

Section DictFacts.
Context {V : Type}.
Implicit Types (d : Dict.t V) (k : string) (v : V).

Lemma get_set_same d k v : Dict.get (Dict.set d k v) k = Some v.
Proof.
  induction d as [|[k' v'] d IH]; simpl.
  - now rewrite String.eqb_refl.
  - destruct (String.eqb k' k) eqn:E; simpl; rewrite E; auto.
Qed.

Lemma get_set_other d k k' v :
  k <> k' -> Dict.get (Dict.set d k v) k' = Dict.get d k'.
Proof.
  intros Hne. induction d as [|[k0 v0] d IH]; simpl.
  - destruct (String.eqb_spec k k'); congruence.
  - destruct (String.eqb_spec k0 k) as [->|Hk]; simpl.
    + destruct (String.eqb_spec k k'); congruence.
    + now rewrite IH.
Qed.

Lemma keys_set d k v :
  Dict.keys (Dict.set d k v) =
  if Dict.mem d k then Dict.keys d else Dict.keys d ++ [k].
Proof.
  unfold Dict.mem, Dict.keys. induction d as [|[k0 v0] d IH]; simpl; auto.
  destruct (String.eqb k0 k) eqn:E; simpl; auto.
  rewrite IH. now destruct (Dict.get d k).
Qed.

Lemma in_keys_get d k : In k (Dict.keys d) <-> Dict.get d k <> None.
Proof.
  unfold Dict.keys. induction d as [|[k0 v0] d IH]; simpl.
  - split; [tauto | congruence].
  - destruct (String.eqb_spec k0 k) as [->|Hk].
    + split; [congruence | auto].
    + rewrite <- IH. split; [intros [?|?]; [congruence | auto] | auto].
Qed.

Lemma in_keys_set d k k' v :
  In k' (Dict.keys (Dict.set d k v)) <-> k' = k \/ In k' (Dict.keys d).
Proof.
  rewrite !in_keys_get. destruct (String.eqb_spec k k') as [->|Hk].
  - rewrite get_set_same. split; [auto | congruence].
  - rewrite get_set_other by assumption.
    split; [auto | intros [?|?]; [congruence | auto]].
Qed.

Lemma values_set_forall (P : V -> Prop) d k v :
  P v -> Forall P (Dict.values d) -> Forall P (Dict.values (Dict.set d k v)).
Proof.
  unfold Dict.values. intros Hv. induction d as [|[k0 v0] d IH]; simpl.
  - auto.
  - intros H. inversion H; subst.
    destruct (String.eqb k0 k); simpl; constructor; auto.
Qed.
End DictFacts.

(** ** The base loop and its exception *)

Lemma base_epic_eq w mode gp gn select_all c k :
  base_epic w mode gp gn select_all c k
  = if base_epic_raises w k
    then Raised "StreamlitValueBelowMinError"
    else Returned (base_epic_assigns w mode gp gn select_all c k).
Proof.
  unfold base_epic, base_epic_assigns, base_epic_raises, st_number_input_min.
  destruct mode, (is_ppt_epic k), (String.eqb k "PaymentFrequency"),
    (String.eqb k "SumAssuredValidation"); cbn [negb andb]; try reflexivity.
  all: now destruct (Z.ltb 5000000 _).
Qed.

Lemma base_loop_eq w mode gp gn select_all keys : forall c,
  base_loop w mode gp gn select_all keys c
  = (fold_left (base_epic_assigns w mode gp gn select_all)
       (reached_keys w keys) c,
     if existsb (base_epic_raises w) keys
     then Some "StreamlitValueBelowMinError" else None).
Proof.
  induction keys as [|k keys IH]; intros c; cbn [base_loop reached_keys existsb];
    [reflexivity|].
  rewrite base_epic_eq. destruct (base_epic_raises w k); cbn [orb fold_left].
  - reflexivity.
  - apply IH.
Qed.

Lemma base_tab_eq w mode gp gn epic_map c :
  base_tab w mode gp gn epic_map c
  = fold_left
      (base_epic_assigns w mode gp gn
         (st_checkbox w true "select_all_epics_master"))
      (reached_keys w (Dict.keys epic_map)) c.
Proof. unfold base_tab. now rewrite base_loop_eq. Qed.

Lemma base_tab_exception_eq w mode gp gn epic_map c :
  base_tab_exception w mode gp gn epic_map c
  = if existsb (base_epic_raises w) (Dict.keys epic_map)
    then Some "StreamlitValueBelowMinError" else None.
Proof. unfold base_tab_exception. now rewrite base_loop_eq. Qed.

Lemma reached_keys_in w keys k : In k (reached_keys w keys) -> In k keys.
Proof.
  induction keys as [|k' keys IH]; cbn [reached_keys]; [tauto|].
  destruct (base_epic_raises w k'); [intros []|].
  intros [H|H]; [now left | right; auto].
Qed.

Lemma reached_keys_nodup w keys : NoDup keys -> NoDup (reached_keys w keys).
Proof.
  induction 1 as [|k keys Hk Hnd IH]; cbn [reached_keys]; [constructor|].
  destruct (base_epic_raises w k); constructor; auto.
  intros H. apply Hk. eapply reached_keys_in, H.
Qed.

Lemma reached_keys_all w keys :
  existsb (base_epic_raises w) keys = false -> reached_keys w keys = keys.
Proof.
  induction keys as [|k keys IH]; cbn [reached_keys existsb]; [reflexivity|].
  destruct (base_epic_raises w k); [discriminate|].
  intros H. now rewrite IH.
Qed.

(** ** Frame facts of the canvas assignments *)

Lemma any_all_false (l : list bool) : Forall (eq false) l -> any l = false.
Proof.
  unfold any. induction 1 as [|b l Hb _ IH]; simpl; auto.
  now rewrite <- Hb.
Qed.

Lemma is_ppt_epic_cases (k : string) :
  is_ppt_epic k = true ->
  k = "EntryAge" \/ k = "PremiumPayingTerm" \/ k = "PolicyTerm"
  \/ k = "MaturityAge".
Proof.
  unfold is_ppt_epic. rewrite !orb_true_iff, !String.eqb_eq. tauto.
Qed.

Lemma ppt_rows_individual_disabled w sfx maturity epic_key is_selected names :
  (forall ppt, In ppt names ->
     checkbox_state w
       (ppt_enabled_key SetIndividualCountsForEachEpic sfx epic_key ppt)
     = Some false) ->
  forall loc, Forall (eq false) (Dict.values (ppt_enabled loc)) ->
  Forall (eq false)
    (Dict.values
       (ppt_enabled
          (fold_left (ppt_row_individual w sfx maturity epic_key is_selected)
             names loc))).
Proof.
  induction names as [|ppt names IH]; intros Hoff loc Hloc; simpl; auto.
  apply IH; [intros p Hp; apply Hoff; now right|].
  unfold ppt_row_individual, st_checkbox.
  specialize (Hoff ppt (or_introl eq_refl)).
  unfold ppt_enabled_key in Hoff. rewrite Hoff.
  simpl. now apply values_set_forall.
Qed.

Lemma ppt_rows_same_disabled w sfx maturity epic_key is_selected names :
  (forall ppt, In ppt names ->
     checkbox_state w
       (ppt_enabled_key ApplySameCountToAllEpics sfx epic_key ppt)
     = Some false) ->
  forall loc, Forall (eq false) (Dict.values (ppt_enabled loc)) ->
  Forall (eq false)
    (Dict.values
       (ppt_enabled
          (fold_left (ppt_row_same w sfx maturity epic_key is_selected)
             names loc))).
Proof.
  induction names as [|ppt names IH]; intros Hoff loc Hloc; simpl; auto.
  apply IH; [intros p Hp; apply Hoff; now right|].
  unfold ppt_row_same, st_checkbox.
  specialize (Hoff ppt (or_introl eq_refl)).
  unfold ppt_enabled_key in Hoff. rewrite Hoff.
  simpl. now apply values_set_forall.
Qed.

Lemma base_same_refl k c : base_same_at k c c.
Proof. split; tauto. Qed.

Lemma base_same_trans k c1 c2 c3 :
  base_same_at k c1 c2 -> base_same_at k c2 c3 -> base_same_at k c1 c3.
Proof. intros [A B] [C D]. split; [congruence | tauto]. Qed.

Lemma rider_same_refl k c : rider_same_at k c c.
Proof. split; tauto. Qed.

Lemma rider_same_trans k c1 c2 c3 :
  rider_same_at k c1 c2 -> rider_same_at k c2 c3 -> rider_same_at k c1 c3.
Proof. intros [A B] [C D]. split; [congruence | tauto]. Qed.

Lemma in_app_single (k k' : string) (l : list string) :
  k <> k' -> (In k (l ++ [k']) <-> In k l).
Proof.
  intros Hne. rewrite in_app_iff. simpl.
  split; [intros [?|[?|[]]]; [auto | congruence] | auto].
Qed.

Lemma append_selected_epics_same k k' c :
  k <> k' -> base_same_at k c (append_selected_epics c k').
Proof. intros Hne. split; simpl; [auto | now apply in_app_single]. Qed.

Lemma set_epic_counts_same k k' c p :
  k <> k' -> base_same_at k c (set_epic_counts c k' p).
Proof.
  intros Hne. split; simpl; [|tauto].
  apply get_set_other. congruence.
Qed.

Lemma set_epic_counts_item_same k k' k2 c v :
  k <> k' -> base_same_at k c (set_epic_counts_item c k' k2 v).
Proof.
  intros Hne. unfold set_epic_counts_item.
  destruct (Dict.get (epic_counts c) k');
    [now apply set_epic_counts_same | apply base_same_refl].
Qed.

Lemma append_selected_epics_rider_same k k' c :
  k <> k' -> rider_same_at k c (append_selected_epics_rider c k').
Proof. intros Hne. split; simpl; [auto | now apply in_app_single]. Qed.

Lemma set_epic_counts_rider_same k k' c p :
  k <> k' -> rider_same_at k c (set_epic_counts_rider c k' p).
Proof.
  intros Hne. split; simpl; [|tauto].
  apply get_set_other. congruence.
Qed.

(** An iteration of the base loop leaves the entries of the other keys. *)
Lemma base_epic_other w mode gp gn select_all c epic_key k :
  k <> epic_key ->
  base_same_at k c (base_epic_assigns w mode gp gn select_all c epic_key).
Proof.
  intros Hne. unfold base_epic_assigns. branches.
  all: repeat first
    [ apply base_same_refl
    | now apply set_epic_counts_same
    | now apply append_selected_epics_same
    | now apply set_epic_counts_item_same
    | eapply base_same_trans;
      [| first [ now apply set_epic_counts_same
               | now apply set_epic_counts_item_same
               | now apply append_selected_epics_same ] ] ].
Qed.

(** The base loop never assigns to the rider variables. *)
Lemma base_epic_rider_fields w mode gp gn select_all c epic_key :
  let c' := base_epic_assigns w mode gp gn select_all c epic_key in
  epic_counts_rider c' = epic_counts_rider c
  /\ selected_epics_rider c' = selected_epics_rider c.
Proof.
  unfold base_epic_assigns, set_epic_counts_item. branches; simpl; auto.
  all: repeat match goal with
         | |- context [match ?x with Some _ => _ | None => _ end] =>
             destruct x
         end; simpl; auto.
Qed.

(** An iteration of the rider loop leaves the rider entries of the other
    keys. *)
Lemma rider_epic_other w mode gp gn select_all c epic_key k :
  k <> epic_key ->
  rider_same_at k c (rider_epic w mode gp gn select_all c epic_key).
Proof.
  intros Hne. unfold rider_epic. branches;
    try apply rider_same_refl;
    try (split; simpl; tauto);
    (eapply rider_same_trans;
     [| now apply set_epic_counts_rider_same];
     now apply append_selected_epics_rider_same).
Qed.

(** The rider loop assigns to the base variables under the key
    [PaymentFrequency] only. *)
Lemma rider_epic_base_other w mode gp gn select_all c epic_key k :
  k <> "PaymentFrequency" ->
  base_same_at k c (rider_epic w mode gp gn select_all c epic_key).
Proof.
  intros Hne. unfold rider_epic.
  destruct (String.eqb_spec epic_key "PaymentFrequency") as [->|Hk].
  - simpl. branches; try apply base_same_refl.
    all: eapply base_same_trans; [| now apply set_epic_counts_same];
      now apply append_selected_epics_same.
  - branches; try apply base_same_refl; split; simpl; tauto.
Qed.

(** The rider loop leaves the base entries of every key other than
    [PaymentFrequency]. *)
Lemma rider_loop_base_fields w mode gp gn select_all keys k :
  k <> "PaymentFrequency" ->
  forall c,
    base_same_at k c (fold_left (rider_epic w mode gp gn select_all) keys c).
Proof.
  intros Hne. induction keys as [|ek keys IH]; intros c; simpl.
  - apply base_same_refl.
  - eapply base_same_trans; [|apply IH].
    now apply rider_epic_base_other.
Qed.

(** ** PPT-ranged epics without an enabled variant *)

Section NoVariant.
Variables (w : Widgets) (mode : count_mode) (gp gn : Z).
Variable k : string.
Hypothesis k_ppt : is_ppt_epic k = true.

Lemma base_epic_no_variant select_all c :
  (forall ppt, In ppt ppt_names ->
     checkbox_state w (ppt_enabled_key mode "" k ppt) = Some false) ->
  base_epic_assigns w mode gp gn select_all c k = c.
Proof.
  intros Hoff. unfold base_epic_assigns. rewrite k_ppt. destruct mode.
  - rewrite (any_all_false _
               (ppt_rows_same_disabled w "" _ k _ ppt_names Hoff
                  ppt_locals_empty (Forall_nil _))).
    now rewrite andb_false_r.
  - rewrite (any_all_false _
               (ppt_rows_individual_disabled w "" _ k _ ppt_names Hoff
                  ppt_locals_empty (Forall_nil _))).
    now rewrite andb_false_r.
Qed.

Lemma rider_epic_no_variant select_all c :
  (forall ppt, In ppt ppt_names ->
     checkbox_state w (ppt_enabled_key mode "_rider" k ppt) = Some false) ->
  rider_epic w mode gp gn select_all c k = c.
Proof.
  intros Hoff. unfold rider_epic. rewrite k_ppt. destruct mode.
  - rewrite (any_all_false _
               (ppt_rows_same_disabled w "_rider" _ k _ ppt_names Hoff
                  ppt_locals_empty (Forall_nil _))).
    now rewrite andb_false_r.
  - rewrite (any_all_false _
               (ppt_rows_individual_disabled w "_rider" _ k _ ppt_names Hoff
                  ppt_locals_empty (Forall_nil _))).
    now rewrite andb_false_r.
Qed.

Lemma k_not_payment_frequency : k <> "PaymentFrequency".
Proof.
  destruct (is_ppt_epic_cases k k_ppt) as [-> | [-> | [-> | ->]]]; discriminate.
Qed.

Lemma base_loop_no_variant select_all keys :
  (forall ppt, In ppt ppt_names ->
     checkbox_state w (ppt_enabled_key mode "" k ppt) = Some false) ->
  forall c,
    base_same_at k c (fold_left (base_epic_assigns w mode gp gn select_all) keys c).
Proof.
  intros Hoff. induction keys as [|ek keys IH]; intros c; simpl.
  - apply base_same_refl.
  - eapply base_same_trans; [|apply IH].
    destruct (String.eqb_spec k ek) as [<-|Hne].
    + rewrite base_epic_no_variant by assumption. apply base_same_refl.
    + now apply base_epic_other.
Qed.

Lemma rider_loop_no_variant select_all keys :
  (forall ppt, In ppt ppt_names ->
     checkbox_state w (ppt_enabled_key mode "_rider" k ppt) = Some false) ->
  forall c,
    rider_same_at k c (fold_left (rider_epic w mode gp gn select_all) keys c).
Proof.
  intros Hoff. induction keys as [|ek keys IH]; intros c; simpl.
  - apply rider_same_refl.
  - eapply rider_same_trans; [|apply IH].
    destruct (String.eqb_spec k ek) as [<-|Hne].
    + rewrite rider_epic_no_variant by assumption. apply rider_same_refl.
    + now apply rider_epic_other.
Qed.
End NoVariant.

Lemma base_loop_rider_fields w mode gp gn select_all keys c :
  let c' := fold_left (base_epic_assigns w mode gp gn select_all) keys c in
  epic_counts_rider c' = epic_counts_rider c
  /\ selected_epics_rider c' = selected_epics_rider c.
Proof.
  revert c. induction keys as [|ek keys IH]; intros c; simpl; auto.
  destruct (IH (base_epic_assigns w mode gp gn select_all c ek)) as [A B].
  destruct (base_epic_rider_fields w mode gp gn select_all c ek) as [C D].
  simpl in *. split; congruence.
Qed.

(** The main canvas is the rider loop over some keys after the base loop
    over some keys. *)
Lemma main_canvas_loops (i : run_input) (s : session_state) (gp gn : Z) :
  exists keys keys_rider,
    main_canvas i s gp gn
    = fold_left
        (rider_epic (widgets i) (count_mode_selector i) gp gn
           (st_checkbox (widgets i) true "select_all_epics_master_rider"))
        keys_rider
        (fold_left
           (base_epic_assigns (widgets i) (count_mode_selector i) gp gn
              (st_checkbox (widgets i) true "select_all_epics_master"))
           keys canvas_empty).
Proof.
  unfold main_canvas, main_canvas_run.
  destruct (_ && _); [|now exists [], []].
  destruct (load_logic_module _ _) as [lm|]; [|now exists [], []].
  destruct (EPIC_MAP lm) as [em|]; cbn [fst snd].
  - rewrite base_tab_eq, base_tab_exception_eq.
    destruct (existsb _ (Dict.keys em)); cbn [fst].
    + now exists (reached_keys (widgets i) (Dict.keys em)), [].
    + destruct (EPIC_MAP_RIDER lm) as [emr|]; cbn [fst].
      * now exists (reached_keys (widgets i) (Dict.keys em)), (Dict.keys emr).
      * now exists (reached_keys (widgets i) (Dict.keys em)), [].
  - destruct (EPIC_MAP_RIDER lm) as [emr|]; cbn [fst].
    + now exists [], (Dict.keys emr).
    + now exists [], [].
Qed.

(** C4.  A PPT-ranged epic (EntryAge, PolicyTerm, MaturityAge,
    PremiumPayingTerm) whose six PPT check boxes are all unchecked is
    absent from the GenerationSpec and from the selected-epic list, in
    both count modes; this holds for the base tab with the base spec and
    for the rider tab with the rider spec, whatever else the module maps
    contain. *)
Theorem ppt_epic_without_variant_absent
    (i : run_input) (s : session_state) (gp gn : Z) (epic_key : string) :
  is_ppt_epic epic_key = true ->
  let c := main_canvas i s gp gn in
  ((forall ppt, In ppt ppt_names ->
      checkbox_state (widgets i)
        (ppt_enabled_key (count_mode_selector i) "" epic_key ppt)
      = Some false) ->
   ~ In epic_key (Dict.keys (epic_counts c))
   /\ ~ In epic_key (selected_epics c))
  /\
  ((forall ppt, In ppt ppt_names ->
      checkbox_state (widgets i)
        (ppt_enabled_key (count_mode_selector i) "_rider" epic_key ppt)
      = Some false) ->
   ~ In epic_key (Dict.keys (epic_counts_rider c))
   /\ ~ In epic_key (selected_epics_rider c)).
Proof.
  intros Hppt c.
  destruct (main_canvas_loops i s gp gn) as [keys [keys_rider Hc]].
  fold c in Hc.
  assert (Hbase :
    (forall ppt, In ppt ppt_names ->
       checkbox_state (widgets i)
         (ppt_enabled_key (count_mode_selector i) "" epic_key ppt)
       = Some false) ->
    base_same_at epic_key canvas_empty c).
  { intros Hoff. rewrite Hc.
    eapply base_same_trans;
      [apply base_loop_no_variant; eassumption|].
    apply rider_loop_base_fields.
    now apply k_not_payment_frequency. }
  assert (Hrider :
    (forall ppt, In ppt ppt_names ->
       checkbox_state (widgets i)
         (ppt_enabled_key (count_mode_selector i) "_rider" epic_key ppt)
       = Some false) ->
    rider_same_at epic_key canvas_empty c).
  { intros Hoff. rewrite Hc.
    eapply rider_same_trans; [|apply rider_loop_no_variant; eassumption].
    destruct (base_loop_rider_fields (widgets i) (count_mode_selector i)
                gp gn (st_checkbox (widgets i) true "select_all_epics_master")
                keys canvas_empty) as [A B].
    split; [now rewrite A | now rewrite B]. }
  split; intros Hoff.
  - destruct (Hbase Hoff) as [A B]. split.
    + rewrite in_keys_get, A. simpl. congruence.
    + rewrite B. simpl. tauto.
  - destruct (Hrider Hoff) as [A B]. split.
    + rewrite in_keys_get, A. simpl. congruence.
    + rewrite B. simpl. tauto.
Qed.

(** ** SumAssuredValidation *)

Section SumAssured.
Variables (w : Widgets) (mode : count_mode) (gp gn : Z).
Variable select_all : bool.
Hypothesis selected :
  st_checkbox w select_all "epic_cb_SumAssuredValidation" = true.
Hypothesis sp_off :
  st_checkbox w true "sa_enabled_SumAssuredValidation" = false.
Hypothesis oth_off :
  st_checkbox w true "oth_enabled_SumAssuredValidation" = false.

Lemma base_epic_sav c :
  sav_fresh c ->
  sav_kept (base_epic_assigns w mode gp gn select_all c "SumAssuredValidation").
Proof.
  intros Hfresh. unfold base_epic_assigns. destruct mode.
  all: cbn [is_ppt_epic String.eqb Ascii.eqb Bool.eqb orb append].
  all: rewrite selected, sp_off, oth_off.
  all: unfold sav_kept, Dict.mem; cbn [append_selected_epics epic_counts].
  all: destruct Hfresh as [E|E]; rewrite E; cbn [negb]; simpl.
  all: try rewrite get_set_same; try rewrite E.
  all: split; auto; apply in_or_app; right; now left.
Qed.

Lemma base_loop_sav keys :
  forall c,
    sav_fresh c ->
    In "SumAssuredValidation" keys \/ sav_kept c ->
    sav_kept (fold_left (base_epic_assigns w mode gp gn select_all) keys c).
Proof.
  induction keys as [|ek keys IH]; intros c Hfresh Hin; simpl.
  - destruct Hin as [[]|H]; exact H.
  - destruct (String.eqb_spec "SumAssuredValidation" ek) as [<-|Hne].
    + pose proof (base_epic_sav c Hfresh) as Hk.
      apply IH; [right; apply Hk | now right].
    + destruct (base_epic_other w mode gp gn select_all c ek
                  "SumAssuredValidation" Hne) as [A B].
      apply IH.
      * unfold sav_fresh. now rewrite A.
      * destruct Hin as [[H|H]|[H1 H2]]; [congruence | now left |].
        right. split; [now rewrite A | now apply B].
Qed.
End SumAssured.

Lemma no_raise_below_default w keys :
  (st_number_input w 2500000 "min_sp_SumAssuredValidation" <= 5000000)%Z ->
  existsb (base_epic_raises w) keys = false.
Proof.
  intros Hmin. induction keys as [|k keys IH]; cbn [existsb]; [reflexivity|].
  rewrite IH, orb_false_r. unfold base_epic_raises.
  destruct (String.eqb_spec k "SumAssuredValidation") as [->|Hne];
    [|now rewrite andb_false_r].
  cbn [append]. replace (Z.ltb 5000000 _) with false; [now rewrite andb_false_r|].
  symmetry. apply Z.ltb_ge. exact Hmin.
Qed.

(** C10.  When SumAssuredValidation is selected, both of its tier check
    boxes are unchecked and the entered Single Pay minimum is not above
    5000000 (the default of the maximum, which the maximum's input
    otherwise rejects), the key is in the base GenerationSpec, with an
    empty payload, and in the selected-epic list, in both count modes and
    whatever the rider map contains. *)
Theorem sum_assured_without_tier_kept
    (w : Widgets) (mode : count_mode) (gp gn : Z)
    (epic_map epic_map_rider : Dict.t string) :
  In "SumAssuredValidation" (Dict.keys epic_map) ->
  st_checkbox w (st_checkbox w true "select_all_epics_master")
    "epic_cb_SumAssuredValidation" = true ->
  st_checkbox w true "sa_enabled_SumAssuredValidation" = false ->
  st_checkbox w true "oth_enabled_SumAssuredValidation" = false ->
  (st_number_input w 2500000 "min_sp_SumAssuredValidation" <= 5000000)%Z ->
  let c := rider_tab w mode gp gn epic_map_rider
             (base_tab w mode gp gn epic_map canvas_empty) in
  base_tab_exception w mode gp gn epic_map canvas_empty = None
  /\ Dict.get (epic_counts c) "SumAssuredValidation" = Some []
  /\ In "SumAssuredValidation" (Dict.keys (epic_counts c))
  /\ In "SumAssuredValidation" (selected_epics c).
Proof.
  intros Hin Hsel Hsp Hoth Hmin c.
  pose proof (no_raise_below_default w (Dict.keys epic_map) Hmin) as Hno.
  assert (Hbase : sav_kept (base_tab w mode gp gn epic_map canvas_empty)).
  { rewrite base_tab_eq, reached_keys_all by exact Hno.
    apply base_loop_sav; auto. now left. }
  destruct Hbase as [A B].
  assert (Hne : "SumAssuredValidation" <> "PaymentFrequency") by discriminate.
  destruct (rider_loop_base_fields w mode gp gn
              (st_checkbox w true "select_all_epics_master_rider")
              (Dict.keys epic_map_rider) "SumAssuredValidation" Hne
              (base_tab w mode gp gn epic_map canvas_empty)) as [C D].
  fold (rider_tab w mode gp gn epic_map_rider
          (base_tab w mode gp gn epic_map canvas_empty)) in C, D.
  fold c in C, D. repeat split.
  - now rewrite base_tab_exception_eq, Hno.
  - now rewrite C.
  - rewrite in_keys_get, C, A. discriminate.
  - now apply D.
Qed.

(** C10 as the specification states it fails: with the Single Pay
    minimum at 6000000 the input of the maximum raises, the loop stops
    there and the key is neither in the base spec nor in the key list. *)
Lemma sum_assured_minimum_above_default :
  let w := single_pay_minimum_high in
  let epic_map := [("SumAssuredValidation", "Sum assured")] in
  let c := base_tab w ApplySameCountToAllEpics 5 5 epic_map canvas_empty in
  st_checkbox w (st_checkbox w true "select_all_epics_master")
    "epic_cb_SumAssuredValidation" = true
  /\ st_checkbox w true "sa_enabled_SumAssuredValidation" = false
  /\ st_checkbox w true "oth_enabled_SumAssuredValidation" = false
  /\ base_tab_exception w ApplySameCountToAllEpics 5 5 epic_map canvas_empty
     = Some "StreamlitValueBelowMinError"
  /\ Dict.get (epic_counts c) "SumAssuredValidation" = None
  /\ ~ In "SumAssuredValidation" (selected_epics c).
Proof.
  vm_compute. repeat split; intros [].
Qed.

(** ** Payment frequencies *)

Lemma frequency_map_cases (name : string) (code : Z) :
  Dict.get frequency_map name = Some code ->
  (name = "Annual" /\ code = 1%Z) \/ (name = "Half-Yearly" /\ code = 2%Z)
  \/ (name = "Quarterly" /\ code = 3%Z) \/ (name = "Monthly" /\ code = 4%Z)
  \/ (name = "Single Pay" /\ code = 5%Z).
Proof.
  unfold frequency_map, Dict.get.
  repeat match goal with
         | |- context [String.eqb ?a name] =>
             destruct (String.eqb_spec a name) as [<-|?]
         end; intros H; inversion H; subst; tauto.
Qed.

(** The list of codes a tab computes holds exactly the codes (Annual=1,
    Half-Yearly=2, Quarterly=3, Monthly=4, Single Pay=5) of the frequency
    names checked in that tab, in increasing code order whatever the order
    in which the boxes were checked; checking Monthly and Annual gives
    [[1; 4]]. *)
Lemma frequency_codes_in_table_order
    (w : Widgets) (sfx : string) (is_selected : bool) :
  let codes := mapped_frequencies w sfx is_selected in
  (forall name code,
     Dict.get frequency_map name = Some code ->
     (In code codes <-> freq_checkbox w sfx is_selected name = true))
  /\ (forall code, In code codes ->
        exists name, Dict.get frequency_map name = Some code)
  /\ StronglySorted Z.lt codes
  /\ (freq_checkbox w sfx is_selected "Annual" = true ->
      freq_checkbox w sfx is_selected "Half-Yearly" = false ->
      freq_checkbox w sfx is_selected "Quarterly" = false ->
      freq_checkbox w sfx is_selected "Monthly" = true ->
      freq_checkbox w sfx is_selected "Single Pay" = false ->
      codes = [1; 4]%Z).
Proof.
  unfold mapped_frequencies, selected_frequencies, frequency_options.
  cbn [filter]. split; [|split; [|split]].
  - intros name code Hget.
    destruct (frequency_map_cases name code Hget)
      as [[-> ->]|[[-> ->]|[[-> ->]|[[-> ->]|[-> ->]]]]].
    all: frequency_cases w sfx is_selected.
    all: simpl; intuition (try discriminate; try lia).
  - intros code. frequency_cases w sfx is_selected.
    all: simpl; intros Hin.
    all: repeat (destruct Hin as [<-|Hin];
                 [first [ now exists "Annual" | now exists "Half-Yearly"
                        | now exists "Quarterly" | now exists "Monthly"
                        | now exists "Single Pay" ]|]).
    all: destruct Hin.
  - frequency_cases w sfx is_selected.
    all: cbv [map frequency_code frequency_map Dict.get String.eqb Ascii.eqb
                Bool.eqb].
    all: repeat (constructor; try lia).
  - intros -> -> -> -> ->. reflexivity.
Qed.


(** ** Result Aggregator *)

Lemma has_column_count (cols : list string) (col : string) :
  existsb (String.eqb col) cols = true -> 1 <= label_count col cols.
Proof.
  unfold label_count. induction cols as [|c cols IH]; simpl; [discriminate|].
  destruct (String.eqb col c); simpl; [lia | exact IH].
Qed.

Lemma has_column_getitem (df : DataFrame) (col : string) :
  has_column df col = true ->
  label_count col (columns df) <= 1 ->
  exists s, getitem df col = Some s.
Proof.
  unfold has_column, getitem.
  assert (H : existsb (String.eqb col) (columns df) = true ->
              exists i, index_of col (columns df) = Some i).
  { induction (columns df) as [|c cols IH]; simpl; [discriminate|].
    rewrite (String.eqb_sym col c).
    destruct (String.eqb c col); simpl; [now exists 0|].
    intros Hc'. destruct (IH Hc') as [j ->]. now exists (S j). }
  intros Hc Hone. pose proof (has_column_count _ _ Hc) as Hge.
  destruct (H Hc) as [j ->].
  replace (label_count col (columns df)) with 1 by lia. simpl. eauto.
Qed.

Lemma getitem_no_rows (df : DataFrame) (col : string) (s : list cell) :
  rows df = [] -> getitem df col = Some s -> s = [].
Proof.
  unfold getitem. intros ->. destruct (index_of col (columns df)); simpl.
  - destruct (Nat.eqb _ 1); [congruence | discriminate].
  - discriminate.
Qed.

(** C6.  For every table in which the labels [Test_Type] and [Epic] are
    each the label of at most one column, [display_generation_summary]
    returns: without a [Test_Type] column the positive and negative counts
    are zero, and for a table without rows the total, positive and
    negative counts are zero and the charted distribution is empty. *)
Theorem summary_never_raises (df : DataFrame) :
  label_count "Test_Type" (columns df) <= 1 ->
  label_count "Epic" (columns df) <= 1 ->
  exists s,
    display_generation_summary df = Some s
    /\ total_cases_summary s = len df
    /\ (has_column df "Test_Type" = false ->
        positive_cases s = 0 /\ negative_cases s = 0)
    /\ (rows df = [] ->
        total_cases_summary s = 0 /\ positive_cases s = 0
        /\ negative_cases s = 0 /\ distribution s = []).
Proof.
  intros Htt1 Hep1. unfold display_generation_summary.
  destruct (has_column df "Test_Type") eqn:Htt.
  - destruct (has_column_getitem df _ Htt Htt1) as [tt Ett]. rewrite Ett.
    destruct (has_column df "Epic") eqn:Hep.
    + destruct (has_column_getitem df _ Hep Hep1) as [ep Eep]. rewrite Eep.
      eexists. split; [reflexivity|]. simpl.
      split; [reflexivity|]. split; [discriminate|].
      intros Hrows. unfold len, distribution. rewrite Hrows.
      rewrite (getitem_no_rows df _ tt Hrows Ett).
      rewrite (getitem_no_rows df _ ep Hrows Eep). simpl. auto.
    + eexists. split; [reflexivity|]. simpl.
      split; [reflexivity|]. split; [discriminate|].
      intros Hrows. unfold len, distribution. rewrite Hrows.
      rewrite (getitem_no_rows df _ tt Hrows Ett). simpl. auto.
  - destruct (has_column df "Epic") eqn:Hep.
    + destruct (has_column_getitem df _ Hep Hep1) as [ep Eep]. rewrite Eep.
      eexists. split; [reflexivity|]. simpl.
      split; [reflexivity|]. split; [auto|].
      intros Hrows. unfold len, distribution. rewrite Hrows.
      rewrite (getitem_no_rows df _ ep Hrows Eep). simpl. auto.
    + eexists. split; [reflexivity|]. simpl.
      split; [reflexivity|]. split; [auto|].
      intros Hrows. unfold len, distribution. rewrite Hrows. simpl. auto.
Qed.

(** C6 as the specification states it fails: for a table in which two
    columns are labelled [Test_Type] the summary raises. *)
Lemma summary_raises_on_duplicate_label :
  has_column duplicate_test_type "Test_Type" = true
  /\ label_count "Test_Type" (columns duplicate_test_type) = 2
  /\ display_generation_summary duplicate_test_type = None.
Proof. vm_compute. repeat split; reflexivity. Qed.

(** ** Rule-outcome styles *)




(** ** Sampling *)

Lemma remove_at_length {A : Type} (i : nat) (l : list A) :
  i < length l -> length (remove_at i l) = length l - 1.
Proof.
  revert i. induction l as [|x l IH]; intros i Hi; simpl in *; [lia|].
  destruct i as [|i]; simpl; [lia|]. rewrite IH by lia. lia.
Qed.

Lemma remove_at_in {A : Type} (i : nat) (l : list A) (x : A) :
  In x (remove_at i l) -> In x l.
Proof.
  revert i. induction l as [|y l IH]; intros i; simpl; [tauto|].
  destruct i as [|i]; simpl; [auto|]. intros [H|H]; eauto.
Qed.

Lemma remove_at_nodup (i : nat) (l : list nat) :
  NoDup l -> i < length l ->
  NoDup (remove_at i l) /\ ~ In (nth i l 0) (remove_at i l).
Proof.
  revert i. induction l as [|y l IH]; intros i Hnd Hi; simpl in *; [lia|].
  inversion Hnd as [|? ? Hy Hl]; subst.
  destruct i as [|i]; [auto|].
  destruct (IH i Hl ltac:(lia)) as [A B]. split.
  - constructor; [|exact A]. intros H. apply Hy. eapply remove_at_in, H.
  - simpl. intros [H|H]; [|tauto].
    apply Hy. rewrite H. apply nth_In. lia.
Qed.

Lemma mod_length_lt (r : nat) {A : Type} (x : A) (l : list A) :
  r mod length (x :: l) < length (x :: l).
Proof. apply Nat.mod_upper_bound. simpl. lia. Qed.

Lemma choice_length rng n : forall pool k,
  length (choice rng pool n k) = Nat.min n (length pool).
Proof.
  induction n as [|n IH]; intros pool k; [reflexivity|].
  destruct pool as [|x pool]; [reflexivity|].
  cbn [choice length]. rewrite IH.
  rewrite remove_at_length by apply mod_length_lt. simpl. lia.
Qed.

Lemma choice_in rng n : forall pool k x,
  In x (choice rng pool n k) -> In x pool.
Proof.
  induction n as [|n IH]; intros pool k x; [simpl; tauto|].
  destruct pool as [|y pool]; [simpl; tauto|].
  cbn [choice]. intros [H|H].
  - rewrite <- H. apply nth_In, mod_length_lt.
  - eapply remove_at_in, IH, H.
Qed.

Lemma choice_nodup rng n : forall pool k,
  NoDup pool -> NoDup (choice rng pool n k).
Proof.
  induction n as [|n IH]; intros pool k Hnd; [constructor|].
  destruct pool as [|y pool]; [constructor|].
  cbn [choice].
  destruct (remove_at_nodup (rng k mod length (y :: pool)) (y :: pool) Hnd
              (mod_length_lt _ _ _)) as [A B].
  constructor; [|now apply IH].
  intros H. apply B. eapply choice_in, H.
Qed.

(** C8.  Sampling [min(n, len)] rows never raises and returns exactly
    [min(n, len)] rows taken at pairwise distinct row positions of the
    table; with the script's [n = 10], a table of 3 rows gives 3 rows and
    a table of 1000 rows gives 10. *)
Theorem sample_size_without_replacement
    (rng : nat -> nat) (df : DataFrame) (n : nat) :
  (exists out positions,
     sample rng df n = Some out
     /\ len out = Nat.min n (len df)
     /\ columns out = columns df
     /\ NoDup positions
     /\ Forall (fun i => i < len df) positions
     /\ rows out = map (fun i => nth i (rows df) []) positions)
  /\ (len df = 3 ->
      exists out, sample_df rng df = Some out /\ len out = 3)
  /\ (len df = 1000 ->
      exists out, sample_df rng df = Some out /\ len out = 10).
Proof.
  assert (Hgen : forall m,
    exists out positions,
      sample rng df m = Some out
      /\ len out = Nat.min m (len df)
      /\ columns out = columns df
      /\ NoDup positions
      /\ Forall (fun i => i < len df) positions
      /\ rows out = map (fun i => nth i (rows df) []) positions).
  { intros m. unfold sample, DataFrame_sample.
    destruct (Nat.ltb_spec (len df) (Nat.min m (len df))) as [Hlt|Hle];
      [lia|].
    eexists. exists (sample_positions rng df (Nat.min m (len df))).
    split; [reflexivity|]. unfold sample_positions. repeat split.
    - unfold len at 1. simpl. rewrite length_map, choice_length, length_seq.
      lia.
    - apply choice_nodup, seq_NoDup.
    - apply Forall_forall. intros x Hx. apply choice_in, in_seq in Hx. lia. }
  split; [apply Hgen|]. unfold sample_df.
  split; intros Hlen; destruct (Hgen 10) as [out [ps [E [L _]]]];
    exists out; (split; [exact E|]); rewrite L, Hlen; reflexivity.
Qed.

(** ** Module Registry *)

Lemma register_file_eq env modules filename :
  register_file env modules filename =
  if eligible filename
  then Dict.set modules (display_name_of env (drop_last3 filename))
         (drop_last3 filename)
  else modules.
Proof.
  unfold register_file, eligible, display_name_of.
  destruct (_ && _); [|reflexivity].
  now destruct (exec_module env (drop_last3 filename)).
Qed.

Section Listing.
Variable env : environment.



Lemma listing_get_other filenames k : forall modules,
  (forall f, In f filenames -> eligible f = true -> file_key env f <> k) ->
  Dict.get (fold_left (register_file env) filenames modules) k
  = Dict.get modules k.
Proof.
  induction filenames as [|f0 fs IH]; intros modules Hk; simpl; auto.
  rewrite IH by (intros f Hf; apply Hk; now right).
  rewrite register_file_eq. destruct (eligible f0) eqn:E; auto.
  apply get_set_other. apply Hk; auto. now left.
Qed.

End Listing.



(** ** Generation Orchestrator *)

Lemma main_canvas_with_result i s gp gn df :
  generated_df s = Some df -> main_canvas i s gp gn = canvas_empty.
Proof.
  intros H. unfold main_canvas, main_canvas_run. rewrite H.
  now rewrite andb_false_r.
Qed.

Lemma generation_idle e s : processing (session (generation e s)) = false.
Proof.
  unfold generation.
  destruct (load_logic_module e _) as [lm|]; [|reflexivity].
  destruct (generate_test_cases lm) as [g|]; [|reflexivity].
  now destruct (g _ _ _ _).
Qed.

Lemma script_idle_or_empty i s :
  idle_or_empty s -> idle_or_empty (session (script i s)).
Proof.
  unfold idle_or_empty, script. intros Hs.
  destruct (get_available_logic_modules (env i)); [exact Hs|].
  destruct (negb _); [discriminate|].
  destruct (main_canvas_exception i s _ _); [exact Hs|].
  match goal with
  | |- context [main_canvas i s ?p ?n] =>
      pose proof (main_canvas_with_result i s p n) as Hc;
      destruct (main_canvas i s p n) as [ec se ecr ser] eqn:Ec
  end.
  cbn [selected_epics selected_epics_rider epic_counts epic_counts_rider].
  destruct (st_button (generate_clicked i) (processing s)
            && truthy (selected_module_name_py s)
            && negb match se, ser with [], [] => true | _, _ => false end)
    eqn:Egen.
  - cbn [session processing generated_df]. intros _.
    destruct (generated_df s) as [df|] eqn:Edf; [|reflexivity].
    specialize (Hc df eq_refl). inversion Hc; subst.
    rewrite andb_false_r in Egen. discriminate.
  - destruct (_ && st_button (clear_clicked i) (processing s));
      [discriminate|].
    destruct (processing s && truthy (selected_module_name_py s)).
    + cbn [session]. rewrite generation_idle. discriminate.
    + exact Hs.
Qed.

Lemma reachable_idle_or_empty s : reachable s -> idle_or_empty s.
Proof.
  induction 1 as [|i s _ IH]; [discriminate|].
  now apply script_idle_or_empty.
Qed.

(** What the generation step does when the entry point raises: it shows
    the error, stores no result and releases the processing flag. *)
Lemma generation_raised e s exn :
  In (Raised exn) (entry_point_calls (generation e s)) ->
  In (ErrorDuringGeneration exn) (messages (generation e s))
  /\ generated_df (session (generation e s)) = None
  /\ processing (session (generation e s)) = false.
Proof.
  unfold generation.
  destruct (load_logic_module e _) as [lm|]; [|intros []].
  destruct (generate_test_cases lm) as [g|]; [|intros []].
  destruct (g _ _ _ _) as [df|exn']; simpl.
  - intros [H|[]]. discriminate.
  - intros [H|[]]. inversion H; subst. auto.
Qed.

(** In a session reachable by runs of the script nothing is stored when
    the entry point raises, so the stored result is the same before and
    after such a run. *)
Lemma generation_failure_in_session
    (i : run_input) (s : session_state) (exn : string) :
  reachable s ->
  In (Raised exn) (entry_point_calls (script i s)) ->
  In (ErrorDuringGeneration exn) (messages (script i s))
  /\ generated_df (session (script i s)) = generated_df s
  /\ processing (session (script i s)) = false.
Proof.
  intros Hreach. pose proof (reachable_idle_or_empty s Hreach) as Hinv.
  unfold idle_or_empty in Hinv. unfold script.
  destruct (get_available_logic_modules (env i)); [intros []|].
  destruct (negb _); [intros []|].
  destruct (main_canvas_exception i s _ _); [intros []|].
  destruct (_ && negb _); [intros []|].
  destruct (_ && st_button (clear_clicked i) (processing s)); [intros []|].
  destruct (processing s) eqn:Ep; [|intros []].
  destruct (truthy (selected_module_name_py s)); [|intros []].
  cbn [andb session messages entry_point_calls]. intros Hcall.
  destruct (generation_raised (env i) s exn Hcall) as [A [B C]].
  repeat split.
  - apply in_or_app. right. apply in_or_app. now right.
  - rewrite B. symmetry. now apply Hinv.
  - exact C.
Qed.



(** ** Rider PaymentFrequency *)

(** In both count modes a selected rider PaymentFrequency is appended to
    the base key list and assigned into the base spec; the rider
    variables stay as they were. *)
Lemma rider_payment_frequency_effect w mode gp gn select_all c :
  st_checkbox w select_all "epic_cb_PaymentFrequency_rider" = true ->
  let c' := rider_epic w mode gp gn select_all c "PaymentFrequency" in
  epic_counts_rider c' = epic_counts_rider c
  /\ selected_epics_rider c' = selected_epics_rider c
  /\ selected_epics c' = selected_epics c ++ ["PaymentFrequency"]
  /\ In "PaymentFrequency" (Dict.keys (epic_counts c')).
Proof.
  intros Hsel. unfold rider_epic. destruct mode.
  all: cbn [is_ppt_epic String.eqb Ascii.eqb Bool.eqb orb append].
  all: rewrite Hsel; cbn.
  all: repeat split; apply in_keys_set; now left.
Qed.

(** C1.  With PaymentFrequency in both maps, deselected in the base tab
    and selected in the rider tab with counts 7 and 3, the base spec and
    base key list are empty after the base tab, and after the rider tab it
    is the base spec and the base key list that hold PaymentFrequency while
    the rider spec and the rider key list are empty. *)
Theorem rider_payment_frequency_written_to_base :
  let c0 := base_tab rider_frequency_only SetIndividualCountsForEachEpic 5 5
              frequency_in_both canvas_empty in
  let c := rider_tab rider_frequency_only SetIndividualCountsForEachEpic 5 5
             frequency_in_both c0 in
  epic_counts c0 = [] /\ selected_epics c0 = []
  /\ epic_counts c
     = [("PaymentFrequency", payload_frequency 7 3 [1; 2; 3; 4; 5]%Z)]
  /\ selected_epics c = ["PaymentFrequency"]
  /\ epic_counts_rider c = [] /\ selected_epics_rider c = [].
Proof. vm_compute. repeat split; reflexivity. Qed.

(** ** SumAssuredValidation with individual counts *)

(** C2.  In individual-count mode with the tier counts 7/3 (Single Pay) and
    2/1 (Others) entered, the spec stored by the Generate click gives both
    tiers the counts 5 and 5. *)
Theorem sum_assured_tier_counts_not_used :
  let w := sum_assured_tier_counts in
  let s := session (script (run_with w SetIndividualCountsForEachEpic true)
                      session_selected) in
  st_number_input w 5 "pos_sp_SumAssuredValidation" = 7%Z
  /\ st_number_input w 5 "neg_sp_SumAssuredValidation" = 3%Z
  /\ st_number_input w 5 "pos_oth_SumAssuredValidation" = 2%Z
  /\ st_number_input w 5 "neg_oth_SumAssuredValidation" = 1%Z
  /\ processing s = true
  /\ Dict.get (epic_counts_to_generate s) "SumAssuredValidation"
     = Some [("Single Pay", tier_single_pay 2500000 5000000 5 5);
             ("Others", tier_others 5000000 5 5)].
Proof. vm_compute. repeat split; reflexivity. Qed.

(** ** The statements at concrete inputs *)


Lemma ppt_epic_without_variant_absent_witness :
  let i := run_with entry_age_variants_off ApplySameCountToAllEpics false in
  let c := main_canvas i session_selected 5 5 in
  is_ppt_epic "EntryAge" = true
  /\ st_checkbox (widgets i) true "epic_cb_EntryAge" = true
  /\ st_checkbox (widgets i) true "epic_cb_EntryAge_rider" = true
  /\ ~ In "EntryAge" (Dict.keys (epic_counts c))
  /\ ~ In "EntryAge" (selected_epics c)
  /\ ~ In "EntryAge" (Dict.keys (epic_counts_rider c))
  /\ ~ In "EntryAge" (selected_epics_rider c).
Proof.
  intros i c.
  destruct (ppt_epic_without_variant_absent i session_selected 5 5 "EntryAge"
              eq_refl) as [Hbase Hrider].
  split; [reflexivity|]. split; [reflexivity|]. split; [reflexivity|].
  assert (Hb : forall ppt, In ppt ppt_names ->
            checkbox_state (widgets i)
              (ppt_enabled_key (count_mode_selector i) "" "EntryAge" ppt)
            = Some false).
  { intros ppt Hin. simpl in Hin.
    destruct Hin as [<-|[<-|[<-|[<-|[<-|[<-|[]]]]]]]; reflexivity. }
  assert (Hr : forall ppt, In ppt ppt_names ->
            checkbox_state (widgets i)
              (ppt_enabled_key (count_mode_selector i) "_rider" "EntryAge" ppt)
            = Some false).
  { intros ppt Hin. simpl in Hin.
    destruct Hin as [<-|[<-|[<-|[<-|[<-|[<-|[]]]]]]]; reflexivity. }
  destruct (Hbase Hb) as [A B]. destruct (Hrider Hr) as [C D].
  repeat split; assumption.
Defined.

Lemma frequency_codes_in_table_order_witness :
  freq_checkbox monthly_and_annual "" true "Monthly" = true
  /\ freq_checkbox monthly_and_annual "" true "Annual" = true
  /\ mapped_frequencies monthly_and_annual "" true = [1; 4]%Z
  /\ (In 4%Z (mapped_frequencies monthly_and_annual "" true))
  /\ StronglySorted Z.lt (mapped_frequencies monthly_and_annual "" true).
Proof.
  destruct (frequency_codes_in_table_order monthly_and_annual "" true)
    as [Hin [_ [Hsorted Hexample]]].
  split; [reflexivity|]. split; [reflexivity|].
  split; [apply Hexample; reflexivity|].
  split; [apply (Hin "Monthly" 4%Z); reflexivity | exact Hsorted].
Defined.

Lemma summary_never_raises_witness :
  label_count "Test_Type" (columns three_rows) <= 1
  /\ label_count "Epic" (columns no_rows) <= 1
  /\ (exists s, display_generation_summary three_rows = Some s
                /\ total_cases_summary s = 3
                /\ positive_cases s = 0 /\ negative_cases s = 0)
  /\ (exists s, display_generation_summary no_rows = Some s
                /\ total_cases_summary s = 0 /\ positive_cases s = 0
                /\ negative_cases s = 0 /\ distribution s = []).
Proof.
  split; [vm_compute; lia|]. split; [vm_compute; lia|]. split.
  - destruct (summary_never_raises three_rows)
      as [s [E [T [Hno _]]]]; [vm_compute; lia | vm_compute; lia |].
    exists s. split; [exact E|]. split; [exact T|].
    apply Hno. reflexivity.
  - destruct (summary_never_raises no_rows)
      as [s [E [_ [_ Hempty]]]]; [vm_compute; lia | vm_compute; lia |].
    exists s. split; [exact E|]. apply Hempty. reflexivity.
Defined.


Lemma sample_size_without_replacement_witness :
  len three_rows = 3
  /\ exists out, sample_df draws three_rows = Some out /\ len out = 3.
Proof.
  split; [reflexivity|].
  apply (proj1 (proj2 (sample_size_without_replacement draws three_rows 10))).
  reflexivity.
Defined.


Lemma sum_assured_without_tier_kept_witness :
  let w := sum_assured_tiers_off in
  let epic_map := [("EntryAge", "Entry age");
                   ("SumAssuredValidation", "Sum assured")] in
  let c := rider_tab w ApplySameCountToAllEpics 5 5
             [("EntryAge", "Rider entry age")]
             (base_tab w ApplySameCountToAllEpics 5 5 epic_map
                canvas_empty) in
  (st_number_input w 2500000 "min_sp_SumAssuredValidation" <= 5000000)%Z
  /\ base_tab_exception w ApplySameCountToAllEpics 5 5 epic_map canvas_empty
     = None
  /\ Dict.get (epic_counts c) "SumAssuredValidation" = Some []
  /\ In "SumAssuredValidation" (Dict.keys (epic_counts c))
  /\ In "SumAssuredValidation" (selected_epics c).
Proof.
  intros w epic_map c.
  assert (Hmin : (st_number_input w 2500000 "min_sp_SumAssuredValidation"
                  <= 5000000)%Z) by (vm_compute; discriminate).
  split; [exact Hmin|].
  apply (sum_assured_without_tier_kept w ApplySameCountToAllEpics 5 5
           epic_map [("EntryAge", "Rider entry age")]).
  - simpl. tauto.
  - reflexivity.
  - reflexivity.
  - reflexivity.
  - exact Hmin.
Defined.

(** ** Further examples *)

Example derived_title_example :
  derived_title logic_modules "term_plan" = "Term Plan"
  /\ derived_title logic_modules "ulip_saver_v2" = "Ulip Saver V2".
Proof. split; reflexivity. Qed.

(** The scenario of an EntryAge epic with only the Single Pay variant
    enabled, range (18, 65), same-count mode and global counts (5, 5). *)
Example entry_age_single_pay_only :
  let w := widgets_of
             [("ppt_enabled_all_EntryAge_Limited Pay (5 pay)", false);
              ("ppt_enabled_all_EntryAge_Limited Pay (10 pay)", false);
              ("ppt_enabled_all_EntryAge_Limited Pay (15 pay)", false);
              ("ppt_enabled_all_EntryAge_Limited Pay (Pay till age 60)", false);
              ("ppt_enabled_all_EntryAge_Regular Pay", false)] [] in
  epic_counts (base_tab w ApplySameCountToAllEpics 5 5
                 [("EntryAge", "Entry age")] canvas_empty)
  = [("EntryAge",
      [("ppt_age_ranges", VDict [("Single Pay", VTuple 18 65)]);
       ("ppt_enabled",
        VDict [("Single Pay", VBool true);
               ("Limited Pay (5 pay)", VBool false);
               ("Limited Pay (10 pay)", VBool false);
               ("Limited Pay (15 pay)", VBool false);
               ("Limited Pay (Pay till age 60)", VBool false);
               ("Regular Pay", VBool false)]);
       ("positive", VInt 5); ("negative", VInt 5)])].
Proof. reflexivity. Qed.

(** The scenario of SumAssuredValidation with only the Others tier
    enabled and global counts (3, 2). *)
Example sum_assured_others_only :
  let w := widgets_of [("sa_enabled_SumAssuredValidation", false)] [] in
  epic_counts (base_tab w ApplySameCountToAllEpics 3 2
                 [("SumAssuredValidation", "Sum assured")] canvas_empty)
  = [("SumAssuredValidation",
      [("Others", VDict [("min_val", VInt 5000000); ("positive", VInt 3);
                         ("negative", VInt 2)])])].
Proof. reflexivity. Qed.

(** * Further properties of the script *)

(** ** What one iteration of an epic loop does to the canvas *)

Lemma set_set {V : Type} (d : Dict.t V) (k : string) (v v' : V) :
  Dict.set (Dict.set d k v) k v' = Dict.set d k v'.
Proof.
  induction d as [|[k0 v0] d IH]; simpl.
  - now rewrite String.eqb_refl.
  - destruct (String.eqb k0 k) eqn:E; simpl; rewrite E; [reflexivity|].
    now rewrite IH.
Qed.

Lemma set_get_id {V : Type} (d : Dict.t V) (k : string) (v : V) :
  Dict.get d k = Some v -> Dict.set d k v = d.
Proof.
  induction d as [|[k0 v0] d IH]; simpl; [discriminate|].
  destruct (String.eqb k0 k) eqn:E.
  - intros H. now inversion H.
  - intros H. now rewrite IH.
Qed.

Lemma item_after_set c k p t v :
  set_epic_counts_item (set_epic_counts c k p) k t v
  = set_epic_counts c k (Dict.set p t v).
Proof.
  unfold set_epic_counts_item. cbn [set_epic_counts epic_counts].
  rewrite get_set_same. unfold set_epic_counts. cbn. now rewrite set_set.
Qed.

(** The tier part of the SumAssuredValidation branch amounts to one
    assignment under the epic key. *)
Lemma sum_assured_branch_effect c k (sp oth : bool) v1 v2 :
  let c1 := append_selected_epics c k in
  let c2 := if negb (Dict.mem (epic_counts c1) k)
            then set_epic_counts c1 k [] else c1 in
  let c3 := if sp then set_epic_counts_item c2 k "Single Pay" v1 else c2 in
  let c4 := if oth then set_epic_counts_item c3 k "Others" v2 else c3 in
  exists p, c4 = set_epic_counts c1 k p.
Proof.
  intros c1 c2 c3 c4.
  assert (H2 : exists p, c2 = set_epic_counts c1 k p).
  { subst c2. unfold Dict.mem.
    destruct (Dict.get (epic_counts c1) k) as [p0|] eqn:E; cbn [negb].
    - exists p0. unfold set_epic_counts. rewrite (set_get_id _ _ _ E).
      subst c1. reflexivity.
    - now exists []. }
  destruct H2 as [p2 H2].
  assert (H3 : exists p, c3 = set_epic_counts c1 k p).
  { subst c3. rewrite H2. destruct sp; [|eauto].
    rewrite item_after_set. eauto. }
  destruct H3 as [p3 H3].
  subst c4. rewrite H3. destruct oth; [|eauto].
  rewrite item_after_set. eauto.
Qed.

(** An iteration of the base loop leaves the canvas as it is, or appends
    the key to the base key list and assigns a payload under it. *)
Lemma base_epic_effect w mode gp gn select_all c k :
  let c' := base_epic_assigns w mode gp gn select_all c k in
  c' = c \/ exists p, c' = set_epic_counts (append_selected_epics c k) k p.
Proof.
  unfold base_epic_assigns.
  destruct mode, (is_ppt_epic k), (String.eqb k "PaymentFrequency"),
    (String.eqb k "SumAssuredValidation").
  all: try (destruct (st_checkbox w select_all ("epic_cb_" ++ k));
            cbn [andb]; [|now left]).
  all: try (right; apply sum_assured_branch_effect).
  all: try (destruct (any _); [right; eauto | now left]).
  all: right; eauto.
Qed.

(** An iteration of the rider loop leaves the canvas as it is, or appends
    the key to the rider key list and assigns under it in the rider spec,
    or (for PaymentFrequency) does so with the base variables. *)
Lemma rider_epic_effect w mode gp gn select_all c k :
  let c' := rider_epic w mode gp gn select_all c k in
  c' = c
  \/ (exists p,
        c' = set_epic_counts_rider (append_selected_epics_rider c k) k p)
  \/ (k = "PaymentFrequency"
      /\ exists p, c' = set_epic_counts (append_selected_epics c k) k p).
Proof.
  unfold rider_epic.
  destruct mode, (is_ppt_epic k),
    (String.eqb_spec k "PaymentFrequency") as [->|Hk].
  all: try (destruct (st_checkbox w select_all _);
            cbn [andb]; [|now left]).
  all: try (destruct (any _); [right; left; eauto | now left]).
  all: try (right; right; split; [reflexivity | eauto]).
  all: right; left; eauto.
Qed.

(** ** Nothing selected *)

Lemma base_epic_unselected w mode gp gn select_all c k :
  st_checkbox w select_all ("epic_cb_" ++ k) = false ->
  base_epic_assigns w mode gp gn select_all c k = c.
Proof.
  intros H. unfold base_epic_assigns. rewrite H.
  destruct mode, (is_ppt_epic k), (String.eqb k "PaymentFrequency"),
    (String.eqb k "SumAssuredValidation"); reflexivity.
Qed.

Lemma rider_epic_unselected w mode gp gn select_all c k :
  st_checkbox w select_all ("epic_cb_" ++ k ++ "_rider") = false ->
  rider_epic w mode gp gn select_all c k = c.
Proof.
  intros H. unfold rider_epic. rewrite H.
  destruct mode, (is_ppt_epic k), (String.eqb k "PaymentFrequency");
    reflexivity.
Qed.

(** X1.  When no epic of either map is top-level-selected, both specs and
    both key lists are empty, in both count modes. *)
Theorem nothing_selected_empty_canvas
    (w : Widgets) (mode : count_mode) (gp gn : Z)
    (epic_map epic_map_rider : Dict.t string) :
  (forall k, In k (Dict.keys epic_map) ->
     st_checkbox w (st_checkbox w true "select_all_epics_master")
       ("epic_cb_" ++ k) = false) ->
  (forall k, In k (Dict.keys epic_map_rider) ->
     st_checkbox w (st_checkbox w true "select_all_epics_master_rider")
       ("epic_cb_" ++ k ++ "_rider") = false) ->
  rider_tab w mode gp gn epic_map_rider
    (base_tab w mode gp gn epic_map canvas_empty) = canvas_empty.
Proof.
  intros Hbase Hrider. rewrite base_tab_eq. unfold rider_tab.
  assert (Hb : forall keys c,
             (forall k, In k keys ->
                st_checkbox w (st_checkbox w true "select_all_epics_master")
                  ("epic_cb_" ++ k) = false) ->
             fold_left
               (base_epic_assigns w mode gp gn
                  (st_checkbox w true "select_all_epics_master")) keys c = c).
  { induction keys as [|k keys IH]; intros c H; simpl; [reflexivity|].
    rewrite base_epic_unselected by (apply H; now left).
    apply IH. intros k' Hk'. apply H. now right. }
  assert (Hr : forall keys c,
             (forall k, In k keys ->
                st_checkbox w
                  (st_checkbox w true "select_all_epics_master_rider")
                  ("epic_cb_" ++ k ++ "_rider") = false) ->
             fold_left
               (rider_epic w mode gp gn
                  (st_checkbox w true "select_all_epics_master_rider"))
               keys c = c).
  { induction keys as [|k keys IH]; intros c H; simpl; [reflexivity|].
    rewrite rider_epic_unselected by (apply H; now left).
    apply IH. intros k' Hk'. apply H. now right. }
  rewrite Hb by (intros k Hk; apply Hbase; eapply reached_keys_in, Hk).
  now apply Hr.
Qed.

(** ** Key lists and specs *)

Lemma listed_have_payload_base_epic w mode gp gn select_all c k :
  listed_have_payload c ->
  listed_have_payload (base_epic_assigns w mode gp gn select_all c k).
Proof.
  intros [Hb Hr].
  destruct (base_epic_effect w mode gp gn select_all c k) as [->|[p ->]];
    [now split|].
  split; cbn [set_epic_counts append_selected_epics selected_epics
                epic_counts selected_epics_rider epic_counts_rider];
    [|exact Hr].
  intros k' Hin. apply in_keys_set. apply in_app_iff in Hin.
  destruct Hin as [Hin|[<-|[]]]; auto.
Qed.

Lemma listed_have_payload_rider_epic w mode gp gn select_all c k :
  listed_have_payload c ->
  listed_have_payload (rider_epic w mode gp gn select_all c k).
Proof.
  intros [Hb Hr].
  destruct (rider_epic_effect w mode gp gn select_all c k)
    as [->|[[p ->]|[_ [p ->]]]]; [now split| |].
  - split; cbn [set_epic_counts_rider append_selected_epics_rider
                  selected_epics epic_counts selected_epics_rider
                  epic_counts_rider]; [exact Hb|].
    intros k' Hin. apply in_keys_set. apply in_app_iff in Hin.
    destruct Hin as [Hin|[<-|[]]]; auto.
  - split; cbn [set_epic_counts append_selected_epics selected_epics
                  epic_counts selected_epics_rider epic_counts_rider];
      [|exact Hr].
    intros k' Hin. apply in_keys_set. apply in_app_iff in Hin.
    destruct Hin as [Hin|[<-|[]]]; auto.
Qed.

Lemma listed_have_payload_loops w mode gp gn sa sar keys keys_rider c :
  listed_have_payload c ->
  listed_have_payload
    (fold_left (rider_epic w mode gp gn sar) keys_rider
       (fold_left (base_epic_assigns w mode gp gn sa) keys c)).
Proof.
  revert c. induction keys as [|k keys IH]; intros c Hc; simpl.
  - revert c Hc. induction keys_rider as [|k keys_rider IHr];
      intros c Hc; simpl; [exact Hc|].
    now apply IHr, listed_have_payload_rider_epic.
  - now apply IH, listed_have_payload_base_epic.
Qed.

Lemma main_canvas_listed (i : run_input) (s : session_state) (gp gn : Z) :
  listed_have_payload (main_canvas i s gp gn).
Proof.
  destruct (main_canvas_loops i s gp gn) as [keys [keys_rider ->]].
  apply listed_have_payload_loops. split; intros k [].
Qed.

(** X2.  Whatever the widgets and the two maps are, after both tabs every
    key of the base key list has a payload in the base spec and every key
    of the rider key list has a payload in the rider spec. *)
Theorem listed_epics_have_payload
    (w : Widgets) (mode : count_mode) (gp gn : Z)
    (epic_map epic_map_rider : Dict.t string) :
  let c := rider_tab w mode gp gn epic_map_rider
             (base_tab w mode gp gn epic_map canvas_empty) in
  (forall k, In k (selected_epics c) -> In k (Dict.keys (epic_counts c)))
  /\ (forall k, In k (selected_epics_rider c) ->
        In k (Dict.keys (epic_counts_rider c))).
Proof.
  cbv zeta. rewrite base_tab_eq. unfold rider_tab.
  apply listed_have_payload_loops. split; intros k [].
Qed.

(** ** The loop over the six PPT rows *)

Lemma set_fresh {V : Type} (d : Dict.t V) (k : string) (v : V) :
  Dict.get d k = None -> Dict.set d k v = d ++ [(k, v)].
Proof.
  induction d as [|[k0 v0] d IH]; simpl; [reflexivity|].
  destruct (String.eqb k0 k); [discriminate|].
  intros H. now rewrite IH.
Qed.

Lemma ppt_names_nodup : NoDup ppt_names.
Proof.
  unfold ppt_names. repeat constructor; simpl; intuition discriminate.
Qed.

Lemma ppt_rows_same_from w sfx maturity epic_key is_selected names :
  NoDup names ->
  forall loc,
    (forall ppt, In ppt names ->
       Dict.get (ppt_age_ranges loc) ppt = None
       /\ Dict.get (ppt_enabled loc) ppt = None) ->
    fold_left (ppt_row_same w sfx maturity epic_key is_selected) names loc
    = (let on := ppt_checkbox w ApplySameCountToAllEpics sfx epic_key
                   is_selected in
       {| ppt_age_ranges :=
            ppt_age_ranges loc
            ++ map (fun ppt => (ppt, ppt_slider w sfx maturity epic_key ppt))
                 (filter on names);
          ppt_pos_counts := ppt_pos_counts loc;
          ppt_neg_counts := ppt_neg_counts loc;
          ppt_enabled := ppt_enabled loc ++ map (fun ppt => (ppt, on ppt)) names
       |}).
Proof.
  cbv zeta. induction 1 as [|a names Ha Hnd IH]; intros loc Hfresh.
  - destruct loc. cbn. now rewrite !app_nil_r.
  - destruct (Hfresh a (or_introl eq_refl)) as [Hr He].
    assert (Hne : forall ppt, In ppt names -> a <> ppt)
      by (intros ppt Hin ->; contradiction).
    cbn [fold_left filter map]. rewrite IH.
    + unfold ppt_row_same, ppt_checkbox, ppt_enabled_key.
      destruct (st_checkbox w is_selected _);
        cbn [ppt_age_ranges ppt_pos_counts ppt_neg_counts ppt_enabled map];
        rewrite ?set_fresh by assumption; now rewrite <- !app_assoc.
    + intros ppt Hin. destruct (Hfresh ppt (or_intror Hin)) as [Hr' He'].
      unfold ppt_row_same. destruct (st_checkbox w is_selected _);
        cbn [ppt_age_ranges ppt_enabled];
        rewrite ?get_set_other by (now apply Hne); auto.
Qed.

Lemma ppt_rows_individual_from w sfx maturity epic_key is_selected names :
  NoDup names ->
  forall loc,
    (forall ppt, In ppt names ->
       Dict.get (ppt_age_ranges loc) ppt = None
       /\ Dict.get (ppt_pos_counts loc) ppt = None
       /\ Dict.get (ppt_neg_counts loc) ppt = None
       /\ Dict.get (ppt_enabled loc) ppt = None) ->
    fold_left (ppt_row_individual w sfx maturity epic_key is_selected)
      names loc
    = (let on := ppt_checkbox w SetIndividualCountsForEachEpic sfx epic_key
                   is_selected in
       {| ppt_age_ranges :=
            ppt_age_ranges loc
            ++ map (fun ppt => (ppt, ppt_slider w sfx maturity epic_key ppt))
                 (filter on names);
          ppt_pos_counts :=
            ppt_pos_counts loc
            ++ map (fun ppt : string =>
                      (ppt, st_number_input w 5
                              ("epic_pos_" ++ epic_key ++ "_" ++ ppt ++ sfx)))
                 (filter on names);
          ppt_neg_counts :=
            ppt_neg_counts loc
            ++ map (fun ppt : string =>
                      (ppt, st_number_input w 5
                              ("epic_neg_" ++ epic_key ++ "_" ++ ppt ++ sfx)))
                 (filter on names);
          ppt_enabled := ppt_enabled loc ++ map (fun ppt => (ppt, on ppt)) names
       |}).
Proof.
  cbv zeta. induction 1 as [|a names Ha Hnd IH]; intros loc Hfresh.
  - destruct loc. cbn. now rewrite !app_nil_r.
  - destruct (Hfresh a (or_introl eq_refl)) as [Hr [Hp [Hn He]]].
    assert (Hne : forall ppt, In ppt names -> a <> ppt)
      by (intros ppt Hin ->; contradiction).
    cbn [fold_left filter map]. rewrite IH.
    + unfold ppt_row_individual, ppt_checkbox, ppt_enabled_key.
      destruct (st_checkbox w is_selected _);
        cbn [ppt_age_ranges ppt_pos_counts ppt_neg_counts ppt_enabled map];
        rewrite ?set_fresh by assumption; now rewrite <- !app_assoc.
    + intros ppt Hin.
      destruct (Hfresh ppt (or_intror Hin)) as [Hr' [Hp' [Hn' He']]].
      unfold ppt_row_individual. destruct (st_checkbox w is_selected _);
        cbn [ppt_age_ranges ppt_pos_counts ppt_neg_counts ppt_enabled];
        rewrite ?get_set_other by (now apply Hne); auto.
Qed.

(** X3.  The dictionaries built by the loop over the PPT rows: the enabled
    flags cover all six PPT names in table order, while the ranges (and,
    with individual counts, the positive and negative counts) are present
    for exactly the enabled rows, in table order. *)
Theorem ppt_rows_closed_form
    (w : Widgets) (sfx : string) (maturity : Dict.t (Z * Z))
    (epic_key : string) (is_selected : bool) :
  fold_left (ppt_row_same w sfx maturity epic_key is_selected)
    ppt_names ppt_locals_empty
  = (let on := ppt_checkbox w ApplySameCountToAllEpics sfx epic_key
                 is_selected in
     {| ppt_age_ranges :=
          map (fun ppt => (ppt, ppt_slider w sfx maturity epic_key ppt))
            (filter on ppt_names);
        ppt_pos_counts := [];
        ppt_neg_counts := [];
        ppt_enabled := map (fun ppt => (ppt, on ppt)) ppt_names |})
  /\
  fold_left (ppt_row_individual w sfx maturity epic_key is_selected)
    ppt_names ppt_locals_empty
  = (let on := ppt_checkbox w SetIndividualCountsForEachEpic sfx epic_key
                 is_selected in
     {| ppt_age_ranges :=
          map (fun ppt => (ppt, ppt_slider w sfx maturity epic_key ppt))
            (filter on ppt_names);
        ppt_pos_counts :=
          map (fun ppt : string =>
                 (ppt, st_number_input w 5
                         ("epic_pos_" ++ epic_key ++ "_" ++ ppt ++ sfx)))
            (filter on ppt_names);
        ppt_neg_counts :=
          map (fun ppt : string =>
                 (ppt, st_number_input w 5
                         ("epic_neg_" ++ epic_key ++ "_" ++ ppt ++ sfx)))
            (filter on ppt_names);
        ppt_enabled := map (fun ppt => (ppt, on ppt)) ppt_names |}).
Proof.
  split.
  - rewrite (ppt_rows_same_from w sfx maturity epic_key is_selected
               ppt_names ppt_names_nodup ppt_locals_empty);
      [reflexivity | intros; split; reflexivity].
  - rewrite (ppt_rows_individual_from w sfx maturity epic_key is_selected
               ppt_names ppt_names_nodup ppt_locals_empty);
      [reflexivity | intros; repeat split; reflexivity].
Qed.

Lemma any_enabled_flags (on : string -> bool) (names : list string) :
  any (Dict.values (map (fun ppt => (ppt, on ppt)) names)) = existsb on names.
Proof.
  unfold any, Dict.values. induction names as [|a names IH]; simpl.
  - reflexivity.
  - now rewrite IH.
Qed.

Lemma any_ppt_enabled_same w sfx maturity epic_key is_selected :
  any (Dict.values
         (ppt_enabled
            (fold_left (ppt_row_same w sfx maturity epic_key is_selected)
               ppt_names ppt_locals_empty)))
  = existsb (ppt_checkbox w ApplySameCountToAllEpics sfx epic_key is_selected)
      ppt_names.
Proof.
  rewrite (ppt_rows_same_from w sfx maturity epic_key is_selected
             ppt_names ppt_names_nodup ppt_locals_empty)
    by (intros; split; reflexivity).
  cbn [ppt_enabled ppt_locals_empty app]. apply any_enabled_flags.
Qed.

Lemma any_ppt_enabled_individual w sfx maturity epic_key is_selected :
  any (Dict.values
         (ppt_enabled
            (fold_left (ppt_row_individual w sfx maturity epic_key is_selected)
               ppt_names ppt_locals_empty)))
  = existsb
      (ppt_checkbox w SetIndividualCountsForEachEpic sfx epic_key is_selected)
      ppt_names.
Proof.
  rewrite (ppt_rows_individual_from w sfx maturity epic_key is_selected
             ppt_names ppt_names_nodup ppt_locals_empty)
    by (intros; repeat split; reflexivity).
  cbn [ppt_enabled ppt_locals_empty app]. apply any_enabled_flags.
Qed.

(** ** The base key list *)

Lemma sum_assured_branch_selected c k (sp oth : bool) v1 v2 :
  let c1 := append_selected_epics c k in
  let c2 := if negb (Dict.mem (epic_counts c1) k)
            then set_epic_counts c1 k [] else c1 in
  let c3 := if sp then set_epic_counts_item c2 k "Single Pay" v1 else c2 in
  let c4 := if oth then set_epic_counts_item c3 k "Others" v2 else c3 in
  selected_epics c4 = selected_epics c ++ [k].
Proof.
  intros c1 c2 c3 c4.
  destruct (sum_assured_branch_effect c k sp oth v1 v2) as [p Hp].
  cbv zeta in Hp. subst c4 c3 c2 c1. now rewrite Hp.
Qed.

Lemma base_epic_selected w mode gp gn c k :
  selected_epics
    (base_epic_assigns w mode gp gn (st_checkbox w true "select_all_epics_master") c k)
  = selected_epics c ++ (if contributes w mode k then [k] else []).
Proof.
  unfold base_epic_assigns, contributes. cbv zeta.
  destruct mode, (is_ppt_epic k) eqn:Hppt.
  all: rewrite ?any_ppt_enabled_same, ?any_ppt_enabled_individual.
  all: cbn [negb orb].
  all: destruct (String.eqb k "PaymentFrequency"),
         (String.eqb k "SumAssuredValidation").
  all: destruct (st_checkbox w (st_checkbox w true "select_all_epics_master")
                   ("epic_cb_" ++ k)); cbn [andb].
  all: try (destruct (existsb _ ppt_names)).
  all: try (now rewrite app_nil_r).
  all: try reflexivity.
  all: apply sum_assured_branch_selected.
Qed.

(** X4.  After the base tab the base key list is the list of the EPIC_MAP
    keys the loop reached (all of them when no widget call raises, those
    before the epic whose Max SinglePay input raises otherwise), in
    iteration order, restricted to the epics that are selected and, for
    the PPT-ranged ones, have at least one PPT row enabled. *)
Theorem base_key_list_filters_epic_map
    (w : Widgets) (mode : count_mode) (gp gn : Z) (epic_map : Dict.t string) :
  selected_epics (base_tab w mode gp gn epic_map canvas_empty)
  = filter (contributes w mode) (reached_keys w (Dict.keys epic_map)).
Proof.
  rewrite base_tab_eq.
  assert (H : forall keys c,
            selected_epics
              (fold_left
                 (base_epic_assigns w mode gp gn
                    (st_checkbox w true "select_all_epics_master")) keys c)
            = selected_epics c ++ filter (contributes w mode) keys).
  { induction keys as [|k keys IH]; intros c; simpl.
    - now rewrite app_nil_r.
    - rewrite IH, base_epic_selected, <- app_assoc.
      now destruct (contributes w mode k). }
  now rewrite H.
Qed.

Lemma mem_false_not_in {V : Type} (d : Dict.t V) (k : string) :
  ~ In k (Dict.keys d) -> Dict.mem d k = false.
Proof.
  rewrite in_keys_get. unfold Dict.mem.
  destruct (Dict.get d k); [intros H; exfalso; apply H; discriminate | auto].
Qed.

Lemma base_loop_keys_match w mode gp gn select_all keys :
  NoDup keys ->
  forall c,
    (forall k, In k keys -> ~ In k (Dict.keys (epic_counts c))) ->
    Dict.keys (epic_counts c) = selected_epics c ->
    let c' := fold_left (base_epic_assigns w mode gp gn select_all) keys c in
    Dict.keys (epic_counts c') = selected_epics c'.
Proof.
  induction 1 as [|k keys Hk Hnd IH]; intros c Hfresh Hc; simpl; [exact Hc|].
  apply IH.
  - intros k' Hk'.
    destruct (base_epic_effect w mode gp gn select_all c k) as [->|[p ->]].
    + apply Hfresh. now right.
    + cbn [set_epic_counts epic_counts append_selected_epics].
      rewrite in_keys_set. intros [->|Hin]; [contradiction|].
      apply (Hfresh k'); [now right | exact Hin].
  - destruct (base_epic_effect w mode gp gn select_all c k) as [->|[p ->]];
      [exact Hc|].
    cbn [set_epic_counts epic_counts selected_epics append_selected_epics].
    rewrite keys_set, mem_false_not_in by (apply Hfresh; now left).
    now rewrite Hc.
Qed.

(** X5.  When the keys of EPIC_MAP are pairwise distinct (as the keys of a
    dictionary are), the keys of the base spec after the base tab, in
    insertion order, are the base key list. *)
Theorem base_spec_keys_are_key_list
    (w : Widgets) (mode : count_mode) (gp gn : Z) (epic_map : Dict.t string) :
  NoDup (Dict.keys epic_map) ->
  let c := base_tab w mode gp gn epic_map canvas_empty in
  Dict.keys (epic_counts c) = selected_epics c.
Proof.
  intros Hnd. cbv zeta. rewrite base_tab_eq.
  apply base_loop_keys_match;
    [now apply reached_keys_nodup | intros k _ [] | reflexivity].
Qed.

(** ** Same-count mode *)

Section SameCount.
Variables gp gn : Z.

Lemma counts_set_payload c k p :
  all_counts_are gp gn c -> base_payload_counts_are gp gn k p ->
  all_counts_are gp gn (set_epic_counts c k p).
Proof.
  intros [Hb Hr] Hp. split; [|exact Hr].
  cbn [set_epic_counts epic_counts]. intros k' p'.
  destruct (String.eqb_spec k k') as [->|Hne].
  - rewrite get_set_same. intros H. now inversion H; subst.
  - rewrite get_set_other by assumption. apply Hb.
Qed.

Lemma counts_set_payload_rider c k p :
  all_counts_are gp gn c -> counts_are gp gn p ->
  all_counts_are gp gn (set_epic_counts_rider c k p).
Proof.
  intros [Hb Hr] Hp. split; [exact Hb|].
  cbn [set_epic_counts_rider epic_counts_rider]. intros k' p'.
  destruct (String.eqb_spec k k') as [->|Hne].
  - rewrite get_set_same. intros H. now inversion H; subst.
  - rewrite get_set_other by assumption. apply Hr.
Qed.

Lemma counts_set_item c tier v :
  all_counts_are gp gn c -> tier_counts_are gp gn v ->
  all_counts_are gp gn
    (set_epic_counts_item c "SumAssuredValidation" tier v).
Proof.
  intros Hc Hv. unfold set_epic_counts_item.
  destruct (Dict.get (epic_counts c) "SumAssuredValidation") as [p0|] eqn:E;
    [|exact Hc].
  apply counts_set_payload; [exact Hc|].
  pose proof (proj1 Hc _ p0 E) as Hp.
  unfold base_payload_counts_are in *. rewrite String.eqb_refl in *.
  intros t v'. destruct (String.eqb_spec tier t) as [->|Hne].
  - rewrite get_set_same. intros H. now inversion H; subst.
  - rewrite get_set_other by assumption. apply Hp.
Qed.

Lemma counts_append c k :
  all_counts_are gp gn c -> all_counts_are gp gn (append_selected_epics c k).
Proof. intros [Hb Hr]. now split. Qed.

Lemma counts_append_rider c k :
  all_counts_are gp gn c ->
  all_counts_are gp gn (append_selected_epics_rider c k).
Proof. intros [Hb Hr]. now split. Qed.

Lemma counts_no_tier :
  base_payload_counts_are gp gn "SumAssuredValidation" [].
Proof. intros tier v H. discriminate. Qed.

Lemma counts_top_level k p :
  k <> "SumAssuredValidation" -> counts_are gp gn p ->
  base_payload_counts_are gp gn k p.
Proof.
  intros Hne Hp. unfold base_payload_counts_are.
  now rewrite (proj2 (String.eqb_neq _ _) Hne).
Qed.

Lemma counts_tier_single_pay lo hi :
  tier_counts_are gp gn (tier_single_pay lo hi gp gn).
Proof. eexists. split; [reflexivity|]. now split. Qed.

Lemma counts_tier_others lo : tier_counts_are gp gn (tier_others lo gp gn).
Proof. eexists. split; [reflexivity|]. now split. Qed.

Lemma counts_base_epic w select_all c k :
  all_counts_are gp gn c ->
  all_counts_are gp gn
    (base_epic_assigns w ApplySameCountToAllEpics gp gn select_all c k).
Proof.
  intros Hc. unfold base_epic_assigns. cbv zeta.
  destruct (String.eqb_spec k "SumAssuredValidation") as [->|Hne].
  - change (is_ppt_epic "SumAssuredValidation") with false.
    change (String.eqb "SumAssuredValidation" "PaymentFrequency") with false.
    cbv iota.
    repeat match goal with
           | |- all_counts_are _ _ (if ?b then _ else _) => destruct b
           | |- all_counts_are _ _ (set_epic_counts_item _ _ _ _) =>
               apply counts_set_item;
               [| first [apply counts_tier_single_pay
                        | apply counts_tier_others]]
           | |- all_counts_are _ _ (set_epic_counts _ _ _) =>
               apply counts_set_payload; [| apply counts_no_tier]
           | |- all_counts_are _ _ (append_selected_epics _ _) =>
               apply counts_append
           end.
    all: exact Hc.
  - destruct (is_ppt_epic k), (String.eqb k "PaymentFrequency").
    all: repeat match goal with
           | |- all_counts_are _ _ (if ?b then _ else _) => destruct b
           | |- all_counts_are _ _ (set_epic_counts _ _ _) =>
               apply counts_set_payload;
               [| apply counts_top_level; [exact Hne | now split]]
           | |- all_counts_are _ _ (append_selected_epics _ _) =>
               apply counts_append
           end.
    all: exact Hc.
Qed.

Lemma counts_rider_epic w select_all c k :
  all_counts_are gp gn c ->
  all_counts_are gp gn
    (rider_epic w ApplySameCountToAllEpics gp gn select_all c k).
Proof.
  intros Hc. unfold rider_epic. cbv zeta.
  destruct (is_ppt_epic k),
    (String.eqb_spec k "PaymentFrequency") as [->|Hne].
  all: repeat match goal with
         | |- all_counts_are _ _ (if ?b then _ else _) => destruct b
         | |- all_counts_are _ _ (set_epic_counts _ _ _) =>
             apply counts_set_payload;
             [| apply counts_top_level; [discriminate | now split]]
         | |- all_counts_are _ _ (set_epic_counts_rider _ _ _) =>
             apply counts_set_payload_rider; [| now split]
         | |- all_counts_are _ _ (append_selected_epics _ _) =>
             apply counts_append
         | |- all_counts_are _ _ (append_selected_epics_rider _ _) =>
             apply counts_append_rider
         end.
  all: exact Hc.
Qed.
End SameCount.

(** X6.  In same-count mode every payload of the base spec and of the
    rider spec carries the global positive and negative counts, whatever
    the other widgets hold: the payload of SumAssuredValidation in the
    base spec, which holds tiers only, in each of its tiers, and every
    other payload under its own keys positive and negative. *)
Theorem same_count_mode_uses_global_counts
    (w : Widgets) (gp gn : Z) (epic_map epic_map_rider : Dict.t string) :
  all_counts_are gp gn
    (rider_tab w ApplySameCountToAllEpics gp gn epic_map_rider
       (base_tab w ApplySameCountToAllEpics gp gn epic_map canvas_empty)).
Proof.
  rewrite base_tab_eq. unfold rider_tab.
  assert (Hb : forall sa keys c,
            all_counts_are gp gn c ->
            all_counts_are gp gn
              (fold_left (base_epic_assigns w ApplySameCountToAllEpics gp gn sa)
                 keys c)).
  { intros sa. induction keys as [|k keys IH]; intros c Hc;
      cbn [fold_left]; auto.
    apply IH. apply counts_base_epic. exact Hc. }
  assert (Hr : forall sa keys c,
            all_counts_are gp gn c ->
            all_counts_are gp gn
              (fold_left (rider_epic w ApplySameCountToAllEpics gp gn sa)
                 keys c)).
  { intros sa. induction keys as [|k keys IH]; intros c Hc;
      cbn [fold_left]; auto.
    apply IH. apply counts_rider_epic. exact Hc. }
  apply Hr, Hb. split; intros k p H; discriminate.
Qed.

(** ** Runs of the script *)

Lemma listed_nonempty_spec (c : canvas) :
  listed_have_payload c ->
  match selected_epics c, selected_epics_rider c with
  | [], [] => true
  | _, _ => false
  end = false ->
  epic_counts c <> [] \/ epic_counts_rider c <> [].
Proof.
  intros [Hb Hr] H.
  destruct (selected_epics c) as [|k l] eqn:E.
  - destruct (selected_epics_rider c) as [|k l] eqn:Er; [discriminate|].
    right. intros Hnil. specialize (Hr k (or_introl eq_refl)).
    rewrite Hnil in Hr. destruct Hr.
  - left. intros Hnil. specialize (Hb k (or_introl eq_refl)).
    rewrite Hnil in Hb. destruct Hb.
Qed.

Lemma script_pending_has_work i s :
  pending_has_work s -> pending_has_work (session (script i s)).
Proof.
  unfold pending_has_work, script. intros Hs.
  destruct (get_available_logic_modules (env i)); [exact Hs|].
  destruct (negb _); [discriminate|].
  destruct (main_canvas_exception i s _ _); [exact Hs|].
  match goal with
  | |- context [main_canvas i s ?p ?n] =>
      pose proof (main_canvas_listed i s p n) as Hc;
      destruct (main_canvas i s p n) as [ec se ecr ser] eqn:Ec
  end.
  cbn [selected_epics selected_epics_rider epic_counts epic_counts_rider].
  destruct (st_button (generate_clicked i) (processing s)
            && truthy (selected_module_name_py s)
            && negb match se, ser with [], [] => true | _, _ => false end)
    eqn:Egen.
  - cbn [session processing selected_module_name_py epic_counts_to_generate
           epic_counts_to_generate_rider]. intros _.
    apply andb_true_iff in Egen. destruct Egen as [Egen Hsel].
    apply andb_true_iff in Egen. destruct Egen as [_ Htruthy].
    split; [exact Htruthy|].
    apply negb_true_iff in Hsel.
    exact (listed_nonempty_spec _ Hc Hsel).
  - destruct (_ && st_button (clear_clicked i) (processing s));
      [discriminate|].
    destruct (processing s && truthy (selected_module_name_py s)).
    + cbn [session]. rewrite generation_idle. discriminate.
    + exact Hs.
Qed.

Lemma reachable_pending_has_work s : reachable s -> pending_has_work s.
Proof.
  induction 1 as [|i s _ IH]; [discriminate|].
  now apply script_pending_has_work.
Qed.

(** The runs that call the entry point are the runs that reach the
    generation step. *)
Lemma script_calls i s r :
  In r (entry_point_calls (script i s)) ->
  processing s = true
  /\ script i s
     = {| session := session (generation (env i) s);
          messages := messages (script i s);
          entry_point_calls := entry_point_calls (generation (env i) s) |}
  /\ In r (entry_point_calls (generation (env i) s)).
Proof.
  unfold script.
  destruct (get_available_logic_modules (env i)); [intros []|].
  destruct (negb _); [intros []|].
  destruct (main_canvas_exception i s _ _); [intros []|].
  destruct (_ && negb _); [intros []|].
  destruct (_ && st_button (clear_clicked i) (processing s)); [intros []|].
  destruct (processing s); [|intros []].
  destruct (truthy (selected_module_name_py s)); [|intros []].
  cbn [andb session messages entry_point_calls]. auto.
Qed.

(** X7.  In a session, a run calls the generation entry point only when
    the processing flag is set, a module is selected, no result is stored
    and at least one of the two stored specs is non-empty; after such a run
    the processing flag is false. *)
Theorem entry_point_called_only_with_work
    (i : run_input) (s : session_state) (r : outcome DataFrame) :
  reachable s ->
  In r (entry_point_calls (script i s)) ->
  processing s = true
  /\ truthy (selected_module_name_py s) = true
  /\ generated_df s = None
  /\ (epic_counts_to_generate s <> []
      \/ epic_counts_to_generate_rider s <> [])
  /\ processing (session (script i s)) = false.
Proof.
  intros Hreach Hcall.
  destruct (script_calls i s r Hcall) as [Hp [Hs _]].
  destruct (reachable_pending_has_work s Hreach Hp) as [Ht Hw].
  repeat split; auto.
  - now apply (reachable_idle_or_empty s Hreach).
  - rewrite Hs. cbn [session]. apply generation_idle.
Qed.

(** X8.  A run in which the entry point returns a table stores that table,
    reports its number of rows and leaves the processing flag false. *)
Theorem generation_success_stores_result
    (i : run_input) (s : session_state) (df : DataFrame) :
  In (Returned df) (entry_point_calls (script i s)) ->
  generated_df (session (script i s)) = Some df
  /\ In (SuccessGenerated (len df)) (messages (script i s))
  /\ processing (session (script i s)) = false.
Proof.
  unfold script.
  destruct (get_available_logic_modules (env i)); [intros []|].
  destruct (negb _); [intros []|].
  destruct (main_canvas_exception i s _ _); [intros []|].
  destruct (_ && negb _); [intros []|].
  destruct (_ && st_button (clear_clicked i) (processing s)); [intros []|].
  destruct (processing s); [|intros []].
  destruct (truthy (selected_module_name_py s)); [|intros []].
  cbn [andb session messages entry_point_calls]. unfold generation.
  destruct (load_logic_module _ _) as [lm|]; [|intros []].
  destruct (generate_test_cases lm) as [g|]; [|intros []].
  destruct (g _ _ _ _) as [df'|exn]; cbn [entry_point_calls session messages
                                           generated_df processing].
  - intros [H|[]]. inversion H; subst. repeat split.
    apply in_or_app. right. apply in_or_app. right. now left.
  - intros [H|[]]. discriminate.
Qed.


(** ** Product selection *)





(** ** Entries of the registry *)

Lemma listing_provenance env filenames :
  forall modules k v,
    Dict.get (fold_left (register_file env) filenames modules) k = Some v ->
    Dict.get modules k = Some v
    \/ exists filename,
         In filename filenames /\ eligible filename = true
         /\ k = file_key env filename /\ v = drop_last3 filename.
Proof.
  induction filenames as [|f fs IH]; intros modules k v H; simpl in H;
    [now left|].
  destruct (IH _ _ _ H) as [H0|[g [Hg [Hel [Hk Hv]]]]].
  - rewrite register_file_eq in H0. destruct (eligible f) eqn:E.
    + destruct (String.eqb_spec (display_name_of env (drop_last3 f)) k)
        as [<-|Hne].
      * rewrite get_set_same in H0. inversion H0; subst.
        right. exists f. repeat split; auto. now left.
      * rewrite get_set_other in H0 by assumption. now left.
    + now left.
  - right. exists g. repeat split; auto. now right.
Qed.

(** X11.  Every entry of the listing comes from a file of the directory
    whose name ends in [.py] and does not start with two underscores: its
    value is that file name without the extension and its key is the
    display name of that file. *)
Theorem listing_entries_come_from_module_files
    (env : environment) (k v : string) :
  Dict.get (get_available_logic_modules env) k = Some v ->
  dir_exists env = true
  /\ exists filenames filename,
       listdir env = Returned filenames
       /\ In filename filenames
       /\ eligible filename = true
       /\ k = display_name_of env (drop_last3 filename)
       /\ v = drop_last3 filename.
Proof.
  unfold get_available_logic_modules.
  destruct (dir_exists env); [|discriminate]. cbn [negb].
  destruct (listdir env) as [filenames|e]; [|discriminate].
  intros H. split; [reflexivity|].
  destruct (listing_provenance env filenames [] k v H)
    as [H0|[f [Hf [Hel [Hk Hv]]]]]; [discriminate|].
  exists filenames, f. auto.
Qed.

(** X12.  When several files have the same display name, the listing maps
    that name to the last of them in directory order. *)
Theorem listing_last_file_wins
    (env : environment) (before after : list string) (filename : string) :
  dir_exists env = true ->
  listdir env = Returned (before ++ filename :: after) ->
  eligible filename = true ->
  (forall g, In g after -> eligible g = true ->
     file_key env g <> file_key env filename) ->
  Dict.get (get_available_logic_modules env) (file_key env filename)
  = Some (drop_last3 filename).
Proof.
  intros Hdir Hls Hel Hlast. unfold get_available_logic_modules.
  rewrite Hdir, Hls. cbn [negb]. rewrite fold_left_app. cbn [fold_left].
  rewrite listing_get_other by assumption.
  rewrite register_file_eq, Hel. apply get_set_same.
Qed.

(** ** File names *)

Lemma substring_all (s : string) : substring 0 (String.length s) s = s.
Proof. induction s as [|c s IH]; simpl; [reflexivity | now rewrite IH]. Qed.

Lemma substring_split (s : string) : forall n,
  n <= String.length s ->
  (substring 0 n s ++ substring n (String.length s - n) s)%string = s.
Proof.
  induction s as [|c s IH]; intros n Hn; simpl in Hn.
  - assert (n = 0) by lia. subst. reflexivity.
  - destruct n as [|n].
    + cbn [substring String.length Nat.sub append]. now rewrite substring_all.
    + cbn [substring String.length Nat.sub append]. rewrite IH by lia.
      reflexivity.
Qed.

(** X13.  For a file the listing considers, the registered module id
    followed by [.py] is the file name again, so the loader opens the
    file that was listed. *)
Theorem module_id_names_the_file (filename : string) :
  eligible filename = true ->
  (drop_last3 filename ++ ".py")%string = filename.
Proof.
  unfold eligible, endswith, drop_last3. intros H.
  apply andb_true_iff in H. destruct H as [H _].
  apply andb_true_iff in H. destruct H as [Hlen Hsuffix].
  apply Nat.leb_le in Hlen. apply String.eqb_eq in Hsuffix.
  change (String.length ".py") with 3 in *.
  rewrite <- (substring_split filename (String.length filename - 3)) at 3
    by lia.
  replace (String.length filename - (String.length filename - 3)) with 3
    by lia.
  now rewrite Hsuffix.
Qed.

(** ** Derived titles *)

Lemma contains_char (a c : ascii) (s : string) :
  contains (String a "") (String c s)
  = if Ascii.eqb a c then true else contains (String a "") s.
Proof.
  cbn [contains String.prefix].
  destruct (ascii_dec a c) as [->|Hne].
  - rewrite Ascii.eqb_refl. now destruct s.
  - destruct (Ascii.eqb_spec a c); [contradiction|reflexivity].
Qed.

Lemma title_char_not_underscore (c : ascii) (after_letter : bool) :
  let c' := if Ascii.eqb c "_" then " "%char else c in
  Ascii.eqb "_"
    (if is_upper c' || is_lower c'
     then (if after_letter then to_lower c' else to_upper c') else c')
  = false.
Proof.
  destruct c as [[] [] [] [] [] [] [] []], after_letter; reflexivity.
Qed.

Lemma is_ascii_replace_underscores (s : string) :
  is_ascii (replace_underscores s) = is_ascii s.
Proof.
  induction s as [|c s IH]; cbn [replace_underscores is_ascii];
    [reflexivity|].
  rewrite IH. f_equal.
  destruct c as [[] [] [] [] [] [] [] []]; reflexivity.
Qed.

(** X14.  The title derived from a file stem of ASCII characters has as
    many characters as the stem and contains no underscore. *)
Theorem derived_title_shape (env : environment) (stem : string) :
  is_ascii stem = true ->
  String.length (derived_title env stem) = String.length stem
  /\ contains "_" (derived_title env stem) = false.
Proof.
  intros Hascii. unfold derived_title. cbv zeta.
  rewrite is_ascii_replace_underscores, Hascii. unfold title.
  clear Hascii.
  assert (H : forall after_letter,
            String.length (title_from after_letter (replace_underscores stem))
            = String.length stem
            /\ contains "_"
                 (title_from after_letter (replace_underscores stem))
               = false); [|apply H].
  induction stem as [|c stem IH]; intros after_letter;
    [split; reflexivity|].
  cbn [replace_underscores title_from].
  pose proof (title_char_not_underscore c after_letter) as Hc.
  cbv zeta in Hc.
  destruct (is_upper (if Ascii.eqb c "_" then " "%char else c)
            || is_lower (if Ascii.eqb c "_" then " "%char else c)).
  - destruct (IH true) as [Hlen Hno]. split.
    + cbn [String.length]. now rewrite Hlen.
    + rewrite contains_char, Hc. exact Hno.
  - destruct (IH false) as [Hlen Hno]. split.
    + cbn [String.length]. now rewrite Hlen.
    + rewrite contains_char, Hc. exact Hno.
Qed.

Lemma derived_title_shape_witness :
  is_ascii "ulip_saver_v2" = true
  /\ String.length (derived_title logic_modules "ulip_saver_v2")
     = String.length "ulip_saver_v2"
  /\ contains "_" (derived_title logic_modules "ulip_saver_v2") = false.
Proof.
  split; [reflexivity|].
  apply (derived_title_shape logic_modules "ulip_saver_v2"). reflexivity.
Defined.

(** ** Counting the rows of a result *)

Lemma cell_eqb_eq (a b : cell) : cell_eqb a b = true -> a = b.
Proof.
  destruct a, b; simpl; try discriminate.
  - intros H. apply String.eqb_eq in H. now subst.
  - intros H. apply Z.eqb_eq in H. now subst.
Qed.

Lemma cell_eqb_sym (a b : cell) : cell_eqb a b = cell_eqb b a.
Proof.
  destruct a, b; simpl; auto using String.eqb_sym, Z.eqb_sym.
Qed.

Lemma cell_eqb_refl (a : cell) : isna a = false -> cell_eqb a a = true.
Proof.
  destruct a; simpl; [intros _; apply String.eqb_refl
                     | intros _; apply Z.eqb_refl | discriminate].
Qed.

Lemma bump_get c acc v :
  isna c = false ->
  counts_get (bump c acc) v
  = counts_get acc v + (if cell_eqb v c then 1 else 0).
Proof.
  intros Hc. induction acc as [|[c' n] acc IH]; cbn [bump counts_get].
  - rewrite (cell_eqb_sym c v). now destruct (cell_eqb v c).
  - destruct (cell_eqb c' c) eqn:E; cbn [counts_get].
    + apply cell_eqb_eq in E. subst c'. rewrite (cell_eqb_sym c v).
      destruct (cell_eqb v c); lia.
    + destruct (cell_eqb c' v) eqn:E'; [|exact IH].
      apply cell_eqb_eq in E'. subst c'. rewrite E. lia.
Qed.

Lemma tally_get col : forall acc v,
  counts_get
    (fold_left (fun acc c => if isna c then acc else bump c acc) col acc) v
  = counts_get acc v + occurrences v col.
Proof.
  unfold occurrences.
  induction col as [|c col IH]; intros acc v; cbn [fold_left filter length];
    [lia|].
  rewrite IH. destruct (isna c) eqn:Hna.
  - destruct c; try discriminate.
    replace (cell_eqb v CNaN) with false by (now destruct v). reflexivity.
  - rewrite bump_get by assumption.
    destruct (cell_eqb v c); cbn [length]; lia.
Qed.

(** Entries with pairwise distinct, present values and positive counts. *)
Lemma in_keys_bump c acc k :
  In k (map fst (bump c acc)) <-> k = c \/ In k (map fst acc).
Proof.
  induction acc as [|[c' n] acc IH]; cbn [bump map fst In].
  - split; intros [H|H]; auto.
  - destruct (cell_eqb c' c) eqn:E; cbn [map fst In].
    + apply cell_eqb_eq in E. subst c'. split; [auto|].
      intros [H|[H|H]]; auto.
    + rewrite IH. split; [intros [H|[H|H]] | intros [H|[H|H]]]; auto.
Qed.

Lemma nodup_keys_bump c acc :
  isna c = false -> NoDup (map fst acc) -> NoDup (map fst (bump c acc)).
Proof.
  intros Hc.
  induction acc as [|[c' n] acc IH]; cbn [bump map fst]; intros Hnd.
  - repeat constructor. intros [].
  - inversion Hnd as [|? ? Hnotin Hnd']; subst.
    destruct (cell_eqb c' c) eqn:E; cbn [map fst].
    + now constructor.
    + constructor; [|now apply IH].
      rewrite in_keys_bump. intros [->|H]; [|contradiction].
      rewrite cell_eqb_refl in E by assumption. discriminate.
Qed.

Lemma in_keys_insert x l k :
  In k (map fst (insert_by_count x l)) <-> k = fst x \/ In k (map fst l).
Proof.
  induction l as [|y l IH]; cbn [insert_by_count map In].
  - split; intros [H|H]; auto.
  - destruct (Nat.leb (snd y) (snd x)); cbn [map In].
    + split; intros [H|H]; auto.
    + rewrite IH. split; [intros [H|[H|H]] | intros [H|[H|H]]]; auto.
Qed.

Lemma nodup_keys_insert x l :
  ~ In (fst x) (map fst l) -> NoDup (map fst l) ->
  NoDup (map fst (insert_by_count x l)).
Proof.
  induction l as [|y l IH]; cbn [insert_by_count map]; intros Hx Hnd.
  - repeat constructor. intros [].
  - destruct (Nat.leb (snd y) (snd x)); cbn [map].
    + now constructor.
    + inversion Hnd as [|? ? Hy Hnd']; subst. cbn [In] in Hx.
      constructor; [|apply IH; auto].
      rewrite in_keys_insert. intros [H|H]; [|contradiction].
      apply Hx. now left.
Qed.

Lemma insert_get x l v :
  ~ In (fst x) (map fst l) ->
  counts_get (insert_by_count x l) v = counts_get (x :: l) v.
Proof.
  destruct x as [cx nx]. cbn [fst].
  induction l as [|[cy ny] l IH]; cbn [insert_by_count map fst In];
    intros Hx; [reflexivity|].
  destruct (Nat.leb (snd (cy, ny)) (snd (cx, nx))); [reflexivity|].
  cbn [counts_get] in *. rewrite IH by tauto.
  destruct (cell_eqb cy v) eqn:Ey, (cell_eqb cx v) eqn:Ex; try reflexivity.
  apply cell_eqb_eq in Ey, Ex. subst. tauto.
Qed.

Lemma sorted_insert x l :
  Sorted count_ge l -> Sorted count_ge (insert_by_count x l).
Proof.
  induction l as [|y l IH]; cbn [insert_by_count]; intros Hs.
  - repeat constructor.
  - destruct (Nat.leb_spec (snd y) (snd x)) as [Hle|Hlt].
    + constructor; [exact Hs|]. constructor. exact Hle.
    + inversion Hs as [|? ? Hs' Hhd]; subst.
      constructor; [now apply IH|].
      destruct l as [|z l]; cbn [insert_by_count].
      * constructor. unfold count_ge. lia.
      * destruct (Nat.leb (snd z) (snd x)).
        -- constructor. unfold count_ge. lia.
        -- constructor. now inversion Hhd.
Qed.

Lemma tally_ok_bump c acc :
  isna c = false -> tally_ok acc -> tally_ok (bump c acc).
Proof.
  intros Hc [Hnd Hall]. split; [now apply nodup_keys_bump|].
  clear Hnd. induction acc as [|[c' n] acc IH]; cbn [bump].
  - repeat constructor; auto.
  - inversion Hall as [|? ? [Hna Hn] Hall']; subst. cbn [fst snd] in *.
    destruct (cell_eqb c' c); constructor; cbn [fst snd]; auto.
Qed.

Lemma tally_ok_fold : forall cells acc,
  tally_ok acc ->
  tally_ok
    (fold_left (fun acc c => if isna c then acc else bump c acc) cells acc).
Proof.
  induction cells as [|c cells IH]; intros acc Hacc; cbn [fold_left]; auto.
  apply IH. destruct (isna c) eqn:E; [exact Hacc|].
  now apply tally_ok_bump.
Qed.

Lemma tally_ok_sort t :
  tally_ok t -> tally_ok (fold_right insert_by_count [] t).
Proof.
  induction t as [|x t IH]; cbn [fold_right]; intros [Hnd Hall]; [now split|].
  inversion Hnd as [|? ? Hx Hnd']; subst.
  inversion Hall as [|? ? Hpx Hall']; subst.
  destruct (IH (conj Hnd' Hall')) as [Hnd2 Hall2].
  assert (Hkeys : forall k, In k (map fst (fold_right insert_by_count [] t))
                            <-> In k (map fst t)).
  { clear. intros k.
    induction t as [|y t IHt]; cbn [fold_right map In]; [tauto|].
    rewrite in_keys_insert, IHt.
    split; (intros [H|H]; [left; now symmetry | now right]). }
  split.
  - apply nodup_keys_insert; [now rewrite Hkeys | exact Hnd2].
  - clear - Hpx Hall2.
    induction (fold_right insert_by_count [] t) as [|y l IHl];
      cbn [insert_by_count].
    + now repeat constructor.
    + inversion Hall2; subst.
      destruct (Nat.leb (snd y) (snd x)); constructor; auto.
Qed.

Lemma sort_get t v :
  NoDup (map fst t) ->
  counts_get (fold_right insert_by_count [] t) v = counts_get t v.
Proof.
  induction t as [|x t IH]; cbn [fold_right map]; intros Hnd; [reflexivity|].
  inversion Hnd as [|? ? Hx Hnd']; subst.
  rewrite insert_get.
  - destruct x as [cx nx]. cbn [counts_get]. now rewrite IH.
  - intros Hin. apply Hx. clear - Hin.
    induction t as [|y t IHt]; cbn [fold_right map In] in *; [tauto|].
    apply in_keys_insert in Hin.
    destruct Hin as [H|H]; [left; now symmetry | right; auto].
Qed.

Lemma sort_sorted t : Sorted count_ge (fold_right insert_by_count [] t).
Proof.
  induction t as [|x t IH]; cbn [fold_right]; [constructor|].
  now apply sorted_insert.
Qed.

Lemma value_counts_get col v : counts_get (value_counts col) v = occurrences v col.
Proof.
  unfold value_counts. rewrite sort_get.
  - now rewrite tally_get.
  - apply tally_ok_fold. split; constructor.
Qed.

Lemma value_counts_ok col : tally_ok (value_counts col).
Proof.
  unfold value_counts. apply tally_ok_sort, tally_ok_fold. split; constructor.
Qed.

Lemma getitem_has_column (df : DataFrame) (col : string) (s : list cell) :
  getitem df col = Some s -> has_column df col = true /\ length s = len df.
Proof.
  unfold getitem, has_column, len.
  destruct (index_of col (columns df)) as [i|] eqn:E; [|discriminate].
  destruct (Nat.eqb (label_count col (columns df)) 1); [|discriminate].
  intros H. inversion H; subst. split; [|apply length_map].
  clear H. revert i E. induction (columns df) as [|c cols IH]; simpl;
    [discriminate|].
  intros i. rewrite (String.eqb_sym col c).
  destruct (String.eqb c col); [reflexivity|]. simpl.
  destruct (index_of col cols) as [j|]; [|discriminate].
  intros _. now apply (IH j).
Qed.

Lemma occurrences_disjoint (a b : cell) (col : list cell) :
  a <> b -> occurrences a col + occurrences b col <= length col.
Proof.
  intros Hne. unfold occurrences.
  induction col as [|c col IH]; cbn [filter length]; [lia|].
  destruct (cell_eqb a c) eqn:Ea, (cell_eqb b c) eqn:Eb; cbn [length];
    try lia.
  apply cell_eqb_eq in Ea, Eb. congruence.
Qed.

(** X15.  For a table with a [Test_Type] column the summary shows the
    number of rows as total, the number of rows marked [Positive] and the
    number of rows marked [Negative]; the two never add up to more than
    the total. *)
Theorem summary_counts_rows
    (df : DataFrame) (s : summary) (col : list cell) :
  display_generation_summary df = Some s ->
  getitem df "Test_Type" = Some col ->
  total_cases_summary s = len df
  /\ positive_cases s = occurrences (CStr "Positive") col
  /\ negative_cases s = occurrences (CStr "Negative") col
  /\ positive_cases s + negative_cases s <= total_cases_summary s.
Proof.
  intros Hs Hcol. destruct (getitem_has_column df _ col Hcol) as [Hhas Hlen].
  unfold display_generation_summary in Hs. rewrite Hhas, Hcol in Hs.
  rewrite !value_counts_get in Hs.
  assert (Hle : occurrences (CStr "Positive") col
                + occurrences (CStr "Negative") col <= len df)
    by (rewrite <- Hlen; apply occurrences_disjoint; discriminate).
  destruct (has_column df "Epic").
  - destruct (getitem df "Epic"); [|discriminate].
    inversion Hs; subst. cbn. auto.
  - inversion Hs; subst. cbn. auto.
Qed.

Lemma in_counts_get (l : list (cell * nat)) (v : cell) (n : nat) :
  NoDup (map fst l) -> In (v, n) l -> isna v = false -> counts_get l v = n.
Proof.
  intros Hnd Hin Hv. induction l as [|[c m] l IH]; [destruct Hin|].
  cbn [map fst] in Hnd. inversion Hnd as [|? ? Hc Hnd']; subst.
  cbn [counts_get]. destruct Hin as [H|Hin].
  - inversion H; subst. now rewrite cell_eqb_refl.
  - destruct (cell_eqb c v) eqn:E; [|now apply IH].
    apply cell_eqb_eq in E. subst c. exfalso. apply Hc.
    change v with (fst (v, n)). now apply in_map.
Qed.

Lemma counts_get_in_keys (l : list (cell * nat)) (v : cell) :
  1 <= counts_get l v -> In v (map fst l).
Proof.
  induction l as [|[c m] l IH]; cbn [counts_get map fst In]; [lia|].
  destruct (cell_eqb c v) eqn:E; [|auto].
  apply cell_eqb_eq in E. auto.
Qed.

(** X16.  For a table with an [Epic] column the charted distribution
    lists every value of the column that is not missing exactly once,
    with its number of rows, the most frequent value first. *)
Theorem epic_distribution_counts_rows
    (df : DataFrame) (s : summary) (col : list cell) :
  display_generation_summary df = Some s ->
  getitem df "Epic" = Some col ->
  Sorted count_ge (distribution s)
  /\ NoDup (map fst (distribution s))
  /\ (forall v n, In (v, n) (distribution s) ->
        isna v = false /\ 1 <= n /\ n = occurrences v col)
  /\ (forall v, In v col -> isna v = false ->
        In (v, occurrences v col) (distribution s)).
Proof.
  intros Hs Hcol. destruct (getitem_has_column df _ col Hcol) as [Hhas _].
  assert (Hd : distribution s = value_counts col).
  { unfold display_generation_summary in Hs.
    destruct (if has_column df "Test_Type" then _ else _) as [[p n]|];
      [|discriminate].
    rewrite Hhas, Hcol in Hs. inversion Hs; subst. unfold distribution.
    cbn [panel]. now destruct (value_counts col). }
  rewrite Hd. destruct (value_counts_ok col) as [Hnd Hall].
  split; [unfold value_counts; apply sort_sorted|].
  split; [exact Hnd|]. split.
  - intros v n Hin. rewrite Forall_forall in Hall.
    destruct (Hall _ Hin) as [Hv Hn]. cbn [fst snd] in *.
    repeat split; auto.
    rewrite <- value_counts_get. symmetry. now apply in_counts_get.
  - intros v Hin Hv.
    assert (Hocc : 1 <= occurrences v col).
    { unfold occurrences. clear - Hin Hv.
      induction col as [|c col IH]; [destruct Hin|]. cbn [filter].
      destruct Hin as [->|Hin].
      - rewrite cell_eqb_refl by assumption. cbn [length]. lia.
      - specialize (IH Hin). destruct (cell_eqb v c); cbn [length]; lia. }
    rewrite <- value_counts_get in Hocc.
    pose proof (counts_get_in_keys _ _ Hocc) as Hkey.
    apply in_map_iff in Hkey. destruct Hkey as [[v' n] [Hfst Hin']].
    cbn [fst] in Hfst. subst v'.
    rewrite <- (value_counts_get col v).
    now rewrite (in_counts_get _ _ _ Hnd Hin' Hv).
Qed.

(** ** A sample of a small table *)

Lemma map_nth_seq {A : Type} (l : list A) (d : A) :
  map (fun i => nth i l d) (seq 0 (length l)) = l.
Proof.
  induction l as [|x l IH]; [reflexivity|].
  cbn [length seq map nth]. rewrite <- seq_shift, map_map.
  cbn [nth]. now rewrite IH.
Qed.

(** X17.  When the table has no more rows than requested (for the script:
    at most 10 rows), the sample is never refused and consists of all the
    rows of the table, each exactly once, in some order. *)
Theorem sample_of_small_table_is_shuffle
    (rng : nat -> nat) (df : DataFrame) (n : nat) :
  len df <= n ->
  exists out,
    sample rng df n = Some out
    /\ columns out = columns df
    /\ Permutation (rows out) (rows df).
Proof.
  intros Hle. unfold sample, DataFrame_sample.
  rewrite Nat.min_r by exact Hle. rewrite Nat.ltb_irrefl.
  eexists. split; [reflexivity|]. split; [reflexivity|].
  cbn [rows]. unfold sample_positions.
  apply Permutation_trans
    with (map (fun i => nth i (rows df) []) (seq 0 (len df))).
  - apply Permutation_map, NoDup_Permutation_bis.
    + apply choice_nodup, seq_NoDup.
    + rewrite choice_length, length_seq. lia.
    + intros i Hi. eapply choice_in, Hi.
  - unfold len. rewrite map_nth_seq. apply Permutation_refl.
Qed.

(** ** Generic epics *)

Lemma base_epic_generic w mode gp gn select_all c k :
  is_generic_epic k = true ->
  st_checkbox w select_all ("epic_cb_" ++ k) = true ->
  Dict.get (epic_counts (base_epic_assigns w mode gp gn select_all c k)) k
  = Some (generic_counts w mode gp gn k).
Proof.
  unfold is_generic_epic, base_epic_assigns, generic_counts. intros Hg Hsel.
  apply andb_true_iff in Hg. destruct Hg as [Hg Hsav].
  apply andb_true_iff in Hg. destruct Hg as [Hppt Hpf].
  apply negb_true_iff in Hppt, Hpf, Hsav.
  rewrite Hppt, Hpf, Hsav, Hsel.
  destruct mode; cbn [set_epic_counts epic_counts]; apply get_set_same.
Qed.

Lemma base_loop_generic w mode gp gn select_all k keys :
  is_generic_epic k = true ->
  st_checkbox w select_all ("epic_cb_" ++ k) = true ->
  forall c,
    In k keys
    \/ Dict.get (epic_counts c) k = Some (generic_counts w mode gp gn k) ->
    Dict.get
      (epic_counts (fold_left (base_epic_assigns w mode gp gn select_all) keys c)) k
    = Some (generic_counts w mode gp gn k).
Proof.
  intros Hg Hsel. induction keys as [|k' keys IH]; intros c H; simpl.
  - destruct H as [[]|H]; exact H.
  - apply IH. destruct (String.eqb_spec k k') as [<-|Hne].
    + right. now apply base_epic_generic.
    + destruct H as [[H|H]|H]; [congruence | now left | right].
      destruct (base_epic_other w mode gp gn select_all c k' k Hne) as [A _].
      now rewrite A.
Qed.

(** X18.  When no widget call of the base tab raises, a selected epic of
    EPIC_MAP that is neither PPT-ranged nor PaymentFrequency nor
    SumAssuredValidation has, after both tabs, the payload made of the
    global counts in same-count mode and of its own two number inputs in
    individual-count mode. *)
Theorem generic_epic_payload
    (w : Widgets) (mode : count_mode) (gp gn : Z)
    (epic_map epic_map_rider : Dict.t string) (epic_key : string) :
  base_tab_exception w mode gp gn epic_map canvas_empty = None ->
  In epic_key (Dict.keys epic_map) ->
  is_generic_epic epic_key = true ->
  st_checkbox w (st_checkbox w true "select_all_epics_master")
    ("epic_cb_" ++ epic_key) = true ->
  Dict.get
    (epic_counts
       (rider_tab w mode gp gn epic_map_rider
          (base_tab w mode gp gn epic_map canvas_empty))) epic_key
  = Some (generic_counts w mode gp gn epic_key).
Proof.
  intros Hexc Hin Hg Hsel.
  rewrite base_tab_exception_eq in Hexc.
  destruct (existsb (base_epic_raises w) (Dict.keys epic_map)) eqn:Hall;
    [discriminate|].
  assert (Hne : epic_key <> "PaymentFrequency").
  { intros ->. discriminate. }
  unfold rider_tab.
  destruct (rider_loop_base_fields w mode gp gn
              (st_checkbox w true "select_all_epics_master_rider")
              (Dict.keys epic_map_rider) epic_key Hne
              (base_tab w mode gp gn epic_map canvas_empty)) as [A _].
  rewrite A, base_tab_eq, (reached_keys_all _ _ Hall).
  apply base_loop_generic; auto.
Qed.

(** ** The payment-frequency payload of the base tab *)

Lemma base_epic_frequency w mode gp gn select_all c p :
  Dict.get
    (epic_counts
       (base_epic_assigns w mode gp gn select_all c "PaymentFrequency"))
    "PaymentFrequency" = Some p ->
  Dict.get (epic_counts c) "PaymentFrequency" = Some p
  \/ Dict.get p "payment_frequency_options"
     = Some (VList (mapped_frequencies w "" true)).
Proof.
  unfold base_epic_assigns. destruct mode.
  all: cbn [is_ppt_epic String.eqb Ascii.eqb Bool.eqb orb append].
  all: destruct (st_checkbox w select_all "epic_cb_PaymentFrequency");
    [|now left].
  all: cbn [set_epic_counts epic_counts]; rewrite get_set_same.
  all: intros H; inversion H; subst; right; reflexivity.
Qed.

Lemma base_loop_frequency w mode gp gn select_all keys : forall c,
  (forall p, Dict.get (epic_counts c) "PaymentFrequency" = Some p ->
     Dict.get p "payment_frequency_options"
     = Some (VList (mapped_frequencies w "" true))) ->
  forall p,
    Dict.get
      (epic_counts
         (fold_left (base_epic_assigns w mode gp gn select_all) keys c))
      "PaymentFrequency" = Some p ->
    Dict.get p "payment_frequency_options"
    = Some (VList (mapped_frequencies w "" true)).
Proof.
  induction keys as [|k keys IH]; intros c Hc; cbn [fold_left];
    [exact Hc|].
  apply IH. intros p Hp.
  destruct (String.eqb_spec "PaymentFrequency" k) as [<-|Hne].
  - destruct (base_epic_frequency _ _ _ _ _ _ _ Hp); auto.
  - destruct (base_epic_other w mode gp gn select_all c k
                "PaymentFrequency" Hne) as [A _].
    rewrite A in Hp. auto.
Qed.

(** X19.  A PaymentFrequency payload of the base spec after the base tab
    holds, under [payment_frequency_options], a list of codes that
    contains the code of a frequency name exactly when the name is checked
    in the base tab, contains codes of the table only, and is in strictly
    increasing code order. *)
Theorem base_frequency_payload_lists_checked_codes
    (w : Widgets) (mode : count_mode) (gp gn : Z) (epic_map : Dict.t string)
    (p : payload) :
  Dict.get (epic_counts (base_tab w mode gp gn epic_map canvas_empty))
    "PaymentFrequency" = Some p ->
  exists codes,
    Dict.get p "payment_frequency_options" = Some (VList codes)
    /\ (forall name code,
          Dict.get frequency_map name = Some code ->
          (In code codes <-> freq_checkbox w "" true name = true))
    /\ (forall code, In code codes ->
          exists name, Dict.get frequency_map name = Some code)
    /\ StronglySorted Z.lt codes.
Proof.
  rewrite base_tab_eq. intros Hp.
  exists (mapped_frequencies w "" true).
  destruct (frequency_codes_in_table_order w "" true) as [A [B [C _]]].
  repeat split; try apply A; auto.
  eapply base_loop_frequency; [|exact Hp].
  intros p' H. discriminate.
Qed.

(** ** The further properties at concrete inputs *)

Lemma nothing_selected_empty_canvas_witness :
  rider_tab masters_off SetIndividualCountsForEachEpic 5 5
    [("EntryAge", "Rider entry age"); ("PaymentFrequency", "Rider frequency")]
    (base_tab masters_off SetIndividualCountsForEachEpic 5 5
       [("EntryAge", "Entry age"); ("SumAssuredValidation", "Sum assured");
        ("Occupation", "Occupation")] canvas_empty)
  = canvas_empty.
Proof.
  apply nothing_selected_empty_canvas.
  - intros k Hin. simpl in Hin.
    destruct Hin as [<-|[<-|[<-|[]]]]; reflexivity.
  - intros k Hin. simpl in Hin.
    destruct Hin as [<-|[<-|[]]]; reflexivity.
Defined.

Lemma listed_epics_have_payload_witness :
  let c := rider_tab untouched ApplySameCountToAllEpics 5 5
             [("PaymentFrequency", "Rider frequency")]
             (base_tab untouched ApplySameCountToAllEpics 5 5
                [("Occupation", "Occupation")] canvas_empty) in
  In "PaymentFrequency" (selected_epics c)
  /\ In "PaymentFrequency" (Dict.keys (epic_counts c)).
Proof.
  intros c.
  assert (Hin : In "PaymentFrequency" (selected_epics c))
    by (vm_compute; tauto).
  split; [exact Hin|].
  exact (proj1 (listed_epics_have_payload untouched ApplySameCountToAllEpics
                  5 5 [("Occupation", "Occupation")]
                  [("PaymentFrequency", "Rider frequency")])
           "PaymentFrequency" Hin).
Defined.

Lemma base_spec_keys_are_key_list_witness :
  let c := base_tab entry_age_variants_off ApplySameCountToAllEpics 5 5
             [("EntryAge", "Entry age"); ("PaymentFrequency", "Frequency");
              ("Occupation", "Occupation")] canvas_empty in
  NoDup ["EntryAge"; "PaymentFrequency"; "Occupation"]
  /\ Dict.keys (epic_counts c) = selected_epics c.
Proof.
  intros c.
  assert (Hnd : NoDup ["EntryAge"; "PaymentFrequency"; "Occupation"])
    by (repeat constructor; simpl; intuition discriminate).
  split; [exact Hnd|].
  exact (base_spec_keys_are_key_list entry_age_variants_off
           ApplySameCountToAllEpics 5 5
           [("EntryAge", "Entry age"); ("PaymentFrequency", "Frequency");
            ("Occupation", "Occupation")] Hnd).
Defined.

Lemma entry_point_called_only_with_work_witness :
  let i := run_with untouched ApplySameCountToAllEpics false in
  reachable session_pending
  /\ In (Raised "ValueError") (entry_point_calls (script i session_pending))
  /\ processing session_pending = true
  /\ truthy (selected_module_name_py session_pending) = true
  /\ generated_df session_pending = None
  /\ (epic_counts_to_generate session_pending <> []
      \/ epic_counts_to_generate_rider session_pending <> [])
  /\ processing (session (script i session_pending)) = false.
Proof.
  intros i.
  assert (Hreach : reachable session_pending)
    by (unfold session_pending, session_selected;
        apply reachable_run, reachable_run, reachable_initial).
  assert (Hcall : In (Raised "ValueError")
                    (entry_point_calls (script i session_pending)))
    by (vm_compute; left; reflexivity).
  split; [exact Hreach|]. split; [exact Hcall|].
  exact (entry_point_called_only_with_work i session_pending _ Hreach Hcall).
Defined.

Lemma generation_success_stores_result_witness :
  let i := run_endowment false in
  In (Returned two_rows) (entry_point_calls (script i endowment_pending))
  /\ generated_df (session (script i endowment_pending)) = Some two_rows
  /\ In (SuccessGenerated 2) (messages (script i endowment_pending))
  /\ processing (session (script i endowment_pending)) = false.
Proof.
  intros i.
  assert (Hcall : In (Returned two_rows)
                    (entry_point_calls (script i endowment_pending)))
    by (vm_compute; left; reflexivity).
  split; [exact Hcall|].
  exact (generation_success_stores_result i endowment_pending two_rows Hcall).
Defined.



Lemma listing_entries_come_from_module_files_witness :
  Dict.get (get_available_logic_modules logic_modules) "Broken Module"
  = Some "broken_module"
  /\ dir_exists logic_modules = true
  /\ exists filenames filename,
       listdir logic_modules = Returned filenames
       /\ In filename filenames
       /\ eligible filename = true
       /\ "Broken Module" = display_name_of logic_modules (drop_last3 filename)
       /\ "broken_module" = drop_last3 filename.
Proof.
  split; [reflexivity|].
  apply (listing_entries_come_from_module_files logic_modules
           "Broken Module" "broken_module").
  reflexivity.
Defined.

Lemma listing_last_file_wins_witness :
  file_key colliding_titles "term_plan.py"
  = file_key colliding_titles "TERM_PLAN.py"
  /\ Dict.get (get_available_logic_modules colliding_titles) "Term Plan"
     = Some "TERM_PLAN".
Proof.
  split; [reflexivity|].
  apply (listing_last_file_wins colliding_titles ["term_plan.py"]
           ["notes.txt"] "TERM_PLAN.py").
  - reflexivity.
  - reflexivity.
  - reflexivity.
  - intros g [<-|[]] Hel. discriminate.
Defined.

Lemma module_id_names_the_file_witness :
  eligible "term_plan.py" = true
  /\ drop_last3 "term_plan.py" = "term_plan"
  /\ (drop_last3 "term_plan.py" ++ ".py")%string = "term_plan.py".
Proof.
  split; [reflexivity|]. split; [reflexivity|].
  apply module_id_names_the_file. reflexivity.
Defined.

Lemma summary_counts_rows_witness :
  exists s,
    display_generation_summary two_rows = Some s
    /\ total_cases_summary s = 2
    /\ positive_cases s = 1
    /\ negative_cases s = 1.
Proof.
  pose (s := {| total_cases_summary := 2; positive_cases := 1;
                negative_cases := 1;
                panel := BarChart [(CStr "EntryAge", 2)] |}).
  assert (Hs : display_generation_summary two_rows = Some s) by reflexivity.
  exists s. split; [exact Hs|].
  destruct (summary_counts_rows two_rows s
              [CStr "Positive"; CStr "Negative"] Hs eq_refl)
    as [Ht [Hp [Hn _]]].
  repeat split; assumption.
Defined.

Lemma epic_distribution_counts_rows_witness :
  exists s,
    display_generation_summary three_rows = Some s
    /\ In (CStr "EntryAge", 2) (distribution s)
    /\ In (CStr "PolicyTerm", 1) (distribution s)
    /\ Sorted count_ge (distribution s).
Proof.
  pose (s := {| total_cases_summary := 3; positive_cases := 0;
                negative_cases := 0;
                panel := BarChart [(CStr "EntryAge", 2);
                                   (CStr "PolicyTerm", 1)] |}).
  assert (Hs : display_generation_summary three_rows = Some s)
    by reflexivity.
  exists s. split; [exact Hs|].
  destruct (epic_distribution_counts_rows three_rows s
              [CStr "EntryAge"; CStr "PolicyTerm"; CStr "EntryAge"]
              Hs eq_refl) as [Hsorted [_ [_ Hin]]].
  split; [apply (Hin (CStr "EntryAge")); [simpl; tauto | reflexivity]|].
  split; [apply (Hin (CStr "PolicyTerm")); [simpl; tauto | reflexivity]|].
  exact Hsorted.
Defined.

Lemma sample_of_small_table_is_shuffle_witness :
  len three_rows <= 10
  /\ exists out,
       sample draws three_rows 10 = Some out
       /\ columns out = columns three_rows
       /\ Permutation (rows out) (rows three_rows).
Proof.
  assert (Hle : len three_rows <= 10) by (vm_compute; lia).
  split; [exact Hle|].
  exact (sample_of_small_table_is_shuffle draws three_rows 10 Hle).
Defined.

Lemma generic_epic_payload_witness :
  Dict.get
    (epic_counts
       (rider_tab occupation_counts SetIndividualCountsForEachEpic 5 5
          [("PaymentFrequency", "Rider frequency")]
          (base_tab occupation_counts SetIndividualCountsForEachEpic 5 5
             [("SumAssuredValidation", "Sum assured");
              ("Occupation", "Occupation")]
             canvas_empty))) "Occupation"
  = Some (payload_counts 12 0).
Proof.
  apply (generic_epic_payload occupation_counts
           SetIndividualCountsForEachEpic 5 5
           [("SumAssuredValidation", "Sum assured");
            ("Occupation", "Occupation")]
           [("PaymentFrequency", "Rider frequency")] "Occupation").
  - reflexivity.
  - simpl. tauto.
  - reflexivity.
  - reflexivity.
Defined.

Lemma base_frequency_payload_lists_checked_codes_witness :
  Dict.get
    (epic_counts
       (base_tab monthly_and_annual ApplySameCountToAllEpics 5 5
          frequency_in_both canvas_empty)) "PaymentFrequency"
  = Some (payload_frequency 5 5 [1; 4]%Z)
  /\ exists codes,
       Dict.get (payload_frequency 5 5 [1; 4]%Z) "payment_frequency_options"
       = Some (VList codes)
       /\ (forall name code,
             Dict.get frequency_map name = Some code ->
             (In code codes
              <-> freq_checkbox monthly_and_annual "" true name = true))
       /\ (forall code, In code codes ->
             exists name, Dict.get frequency_map name = Some code)
       /\ StronglySorted Z.lt codes.
Proof.
  split; [reflexivity|].
  apply (base_frequency_payload_lists_checked_codes monthly_and_annual
           ApplySameCountToAllEpics 5 5 frequency_in_both).
  reflexivity.
Defined.
